(** * youtube-summarizer: the transcript pipeline of [app.py]

    A shallow embedding of the identifier extractor, the caption
    normaliser, the two-strategy transcript acquisition and the button
    handler of [app.py], with the properties of the design document
    stated and settled against it. *)

From Stdlib Require Import List NArith Arith Bool Ascii String Lia.
From Stdlib Require Import DecimalString.
Import ListNotations.

Set Implicit Arguments.

(** ** Python strings

    A Python [str] is a sequence of Unicode code points; [len], slicing
    and the [re] module all count code points.  *)

Definition char := N.
Definition pystr := list char.

(** ASCII literals of the source, written as Rocq strings. *)
Definition str (s : string) : pystr :=
  map N_of_ascii (list_ascii_of_string s).

Definition char_eqb (a b : char) : bool := N.eqb a b.

Fixpoint pystr_eqb (a b : pystr) : bool :=
  match a, b with
  | [], [] => true
  | x :: a', y :: b' => char_eqb x y && pystr_eqb a' b'
  | _, _ => false
  end.

(** [s.startswith(p)] *)
Fixpoint startswith (p s : pystr) : bool :=
  match p, s with
  | [], _ => true
  | x :: p', y :: s' => char_eqb x y && startswith p' s'
  | _ :: _, [] => false
  end.

(** [s.endswith(p)] *)
Definition endswith (p s : pystr) : bool :=
  startswith (rev p) (rev s).

(** [p in s] for strings: [p] occurs as a contiguous substring. *)
Fixpoint contains (p s : pystr) : bool :=
  startswith p s ||
  match s with
  | [] => false
  | _ :: s' => contains p s'
  end.

(** [sep.join(parts)] *)
Fixpoint join (sep : pystr) (parts : list pystr) : pystr :=
  match parts with
  | [] => []
  | [p] => p
  | p :: rest => p ++ sep ++ join sep rest
  end.

(** [str(n)] for a non-negative integer. *)
Definition str_of_nat (n : nat) : pystr :=
  str (NilEmpty.string_of_uint (Nat.to_uint n)).

(** ** The interpreter's character classes

    [\d], [\s] and [str.strip()] consult the Unicode database of the
    running interpreter.  On the ASCII range the classes are fixed
    ([0-9]; tab..carriage-return, file..unit separator, space); above it
    they are whatever the interpreter's tables say, which the embedding
    takes as a parameter. *)

Record Unicode := {
  uni_decimal : char -> bool;   (* category Nd, code points >= 128 *)
  uni_space   : char -> bool    (* str.isspace, code points >= 128 *)
}.

Definition is_decimal (u : Unicode) (c : char) : bool :=
  (if N.ltb c 128 then N.leb 48 c && N.leb c 57 else uni_decimal u c)%N.

Definition is_space (u : Unicode) (c : char) : bool :=
  (if N.ltb c 128
   then (N.leb 9 c && N.leb c 13) || (N.leb 28 c && N.leb c 31) || N.eqb c 32
   else uni_space u c)%N.

Definition is_char (a : ascii) (c : char) : bool := char_eqb (N_of_ascii a) c.
Definition not_char (a : ascii) (c : char) : bool := negb (is_char a c).

Definition NL : char := 10%N.
Definition SP : char := 32%N.

(** ** A matcher for the patterns of [extract_text_from_vtt]

    Every pattern of the source is a sequence of single-character items,
    each optionally repeated with a greedy [+], possibly anchored by [^]
    under [re.MULTILINE]. *)

Inductive atom :=
| One  (p : char -> bool)    (* one character of the class *)
| Many (p : char -> bool).   (* class+ : one or more, greedy *)

Record regex := {
  bol   : bool;              (* pattern starts with ^ (MULTILINE) *)
  atoms : list atom
}.

(** [class+] followed by the continuation [k]: take as many characters as
    possible, give back one at a time while [k] fails. The result is the
    number of characters matched. *)
Fixpoint match_many (p : char -> bool) (k : pystr -> option nat) (s : pystr)
  : option nat :=
  match s with
  | [] => None
  | c :: s' =>
      if p c then
        match match_many p k s' with
        | Some n => Some (S n)
        | None => option_map S (k s')
        end
      else None
  end.

Fixpoint match_atoms (r : list atom) (s : pystr) : option nat :=
  match r with
  | [] => Some 0
  | One p :: r' =>
      match s with
      | c :: s' => if p c then option_map S (match_atoms r' s') else None
      | [] => None
      end
  | Many p :: r' => match_many p (match_atoms r') s
  end.

(** [^] under MULTILINE holds at the start of the string and right after
    a line feed; [prev] is the character before the current position. *)
Definition at_bol (prev : option char) : bool :=
  match prev with
  | None => true
  | Some c => char_eqb c NL
  end.

Definition match_at (r : regex) (prev : option char) (s : pystr) : option nat :=
  if bol r && negb (at_bol prev) then None else match_atoms (atoms r) s.

(** [re.sub(r, repl, s)]: leftmost matches, left to right, not
    overlapping.  [skip] counts the characters of the current match that
    are still to be dropped. *)
Fixpoint sub_from (r : regex) (repl : pystr) (prev : option char) (skip : nat)
    (s : pystr) : pystr :=
  match s with
  | [] =>
      match skip, match_at r prev [] with
      | O, Some _ => repl
      | _, _ => []
      end
  | c :: s' =>
      match skip with
      | S k => sub_from r repl (Some c) k s'
      | O =>
          match match_at r prev s with
          | Some (S n) => repl ++ sub_from r repl (Some c) n s'
          | Some O => repl ++ c :: sub_from r repl (Some c) 0 s'
          | None => c :: sub_from r repl (Some c) 0 s'
          end
      end
  end.

Definition re_sub (r : regex) (repl s : pystr) : pystr :=
  sub_from r repl None 0 s.

(** [s.strip()] *)
Fixpoint lstrip (u : Unicode) (s : pystr) : pystr :=
  match s with
  | c :: s' => if is_space u c then lstrip u s' else s
  | [] => []
  end.

Definition rstrip (u : Unicode) (s : pystr) : pystr :=
  rev (lstrip u (rev s)).

Definition strip (u : Unicode) (s : pystr) : pystr :=
  rstrip u (lstrip u s).

(** ** The patterns, as written at lines 116-123 *)

Section Patterns.
Variable u : Unicode.

Let d := One (is_decimal u).
Let c (a : ascii) := One (is_char a).

(** [\d{2}:\d{2}:\d{2}\.\d{3}] *)
Definition clock : list atom :=
  [d; d; c ":"; d; d; c ":"; d; d; c "."; d; d; d].

(** [\d{2}:\d{2}:\d{2}\.\d{3} --> \d{2}:\d{2}:\d{2}\.\d{3}] *)
Definition re_timestamp : regex :=
  {| bol := false;
     atoms := clock ++ [c " "; c "-"; c "-"; c ">"; c " "] ++ clock |}.

(** [<[^>]+>] *)
Definition re_tag : regex :=
  {| bol := false; atoms := [c "<"; Many (not_char ">"); c ">"] |}.

(** [WEBVTT\n\n] *)
Definition re_header : regex :=
  {| bol := false;
     atoms := [c "W"; c "E"; c "B"; c "V"; c "T"; c "T";
               One (char_eqb NL); One (char_eqb NL)] |}.

(** [\n+] *)
Definition re_newlines : regex :=
  {| bol := false; atoms := [Many (char_eqb NL)] |}.

(** [^\d+\n] with [flags=re.MULTILINE] *)
Definition re_cue_number : regex :=
  {| bol := true; atoms := [Many (is_decimal u); One (char_eqb NL)] |}.

(** [\s+] *)
Definition re_spaces : regex :=
  {| bol := false; atoms := [Many (is_space u)] |}.

(** Lines 116-124: the text left after the six substitutions and the
    final [strip()]. *)
Definition vtt_clean (content : pystr) : pystr :=
  let text := re_sub re_timestamp [] content in
  let text := re_sub re_tag [] text in
  let text := re_sub re_header [] text in
  let text := re_sub re_newlines [SP] text in
  let text := re_sub re_cue_number [] text in
  let text := re_sub re_spaces [SP] text in
  strip u text.

Definition too_short_prefix : pystr :=
  str "Error: Extracted text too short. VTT content: ".

(** Lines 116-131: what [extract_text_from_vtt] returns for a caption
    document it has read (the spec's [normalize]). *)
Definition normalize (content : pystr) : pystr :=
  let text := vtt_clean content in
  if List.length text <? 10
  then too_short_prefix ++ firstn 500 content
  else text.
End Patterns.

(** ** Exceptions, effects and the outside world *)

(** The exception classes that reach the handlers of [app.py]; each is a
    subclass of [Exception], so a blanket [except Exception] takes all of
    them. *)
Inductive exn_class :=
| NameError | ValueError | KeyError | OSError | UnicodeDecodeError
| VideoUnavailable | TranscriptsDisabled | NoTranscriptFound
| DownloadError | OtherException.

Record exn := {
  exn_class_of : exn_class;
  exn_str : pystr              (* str(e) *)
}.

Inductive outcome (A : Type) :=
| Ok (a : A)
| Raise (e : exn).
Arguments Ok {A} a.
Arguments Raise {A} e.

(** What the program does to the outside: the Streamlit calls, and the
    requests it sends to its collaborators. *)
Inductive event :=
| StWrite (msg : pystr)
| StError (msg : pystr)
| StMarkdown (msg : pystr)
| MakeTempDir
| YdlExtractInfo (url : pystr)
| YdlDownload (url : pystr)
| ApiListTranscripts (video_id : pystr)
| GeminiGenerate (contents : pystr).

Definition trace := list event.

(** Computations that may raise and that append to the trace. *)
Definition M (A : Type) := trace -> outcome A * trace.

Definition ret {A} (a : A) : M A := fun tr => (Ok a, tr).
Definition raise {A} (e : exn) : M A := fun tr => (Raise e, tr).
Definition bind {A B} (m : M A) (k : A -> M B) : M B :=
  fun tr =>
    match m tr with
    | (Ok a, tr') => k a tr'
    | (Raise e, tr') => (Raise e, tr')
    end.
Definition emit (e : event) : M unit := fun tr => (Ok tt, tr ++ [e]).
Definition lift {A} (o : outcome A) : M A := fun tr => (o, tr).

(** [try: m  except Exception as e: h e] *)
Definition try_except {A} (m : M A) (h : exn -> M A) : M A :=
  fun tr =>
    match m tr with
    | (Ok a, tr') => (Ok a, tr')
    | (Raise e, tr') => h e tr'
    end.

Declare Scope py_scope.
Delimit Scope py_scope with py.
Notation "x <- m ;; k" := (bind m (fun x => k))
  (at level 61, m at next level, right associativity) : py_scope.
Notation "m ;; k" := (bind m (fun _ => k))
  (at level 61, right associativity) : py_scope.
Local Open Scope py_scope.

Definition result_of {A} (m : M A) (tr : trace) : outcome A := fst (m tr).
Definition trace_of {A} (m : M A) (tr : trace) : trace := snd (m tr).

(** *** Library values *)

(** [urllib.parse.ParseResult] *)
Record ParseResult := {
  scheme : pystr; netloc : pystr; path : pystr;
  params : pystr; query : pystr; fragment : pystr
}.

(** A [dict] with string keys, in insertion order. *)
Definition dict (V : Type) := list (pystr * V).

Fixpoint dict_get {V} (d : dict V) (k : pystr) : option V :=
  match d with
  | [] => None
  | (k', v) :: d' => if pystr_eqb k' k then Some v else dict_get d' k
  end.

(** [k in d] *)
Definition dict_has {V} (d : dict V) (k : pystr) : bool :=
  match dict_get d k with Some _ => true | None => false end.

(** The interpreter and its standard library: none of it is code of the
    repository, so the embedding is stated for every behaviour of it. *)
Record Runtime := {
  unicode  : Unicode;
  urlparse : pystr -> outcome ParseResult;
  parse_qs : pystr -> outcome (dict (list pystr))
}.

(** One caption track of the transcript service, and the listing for a
    video. *)
Record Transcript := {
  fetch : outcome (list (dict pystr))
}.
Record TranscriptList := {
  find_transcript : list pystr -> outcome Transcript
}.

(** The [info] dictionary of yt-dlp, with the two entries the code reads. *)
Record Info := {
  subtitles : dict unit;
  automatic_captions : dict unit
}.

(** The services and the file system the acquisition talks to. *)
Record World := {
  temporary_directory : outcome pystr;            (* tempfile.TemporaryDirectory() *)
  extract_info : pystr -> outcome Info;           (* ydl.extract_info(url, download=False) *)
  download : pystr -> outcome unit;               (* ydl.download([url]) *)
  listdir : pystr -> outcome (list pystr);        (* os.listdir(temp_dir) after the download *)
  read_text : pystr -> outcome pystr;             (* open(path, 'r', encoding='utf-8').read() *)
  list_transcripts : pystr -> outcome TranscriptList;
  generate_content : pystr -> outcome pystr       (* model.generate_content(...).text *)
}.

(** *** Names

    The names bound in the module namespace when a function of [app.py]
    runs: the five import statements, the module-level assignments and the
    function definitions. [os] is not among them, and it is not a builtin. *)
Definition module_globals : list string :=
  [ "st"; "genai";
    "YouTubeTranscriptApi"; "TranscriptsDisabled"; "VideoUnavailable";
    "urlparse"; "parse_qs"; "yt_dlp";
    "api_key"; "prompt";
    "extract_video_id"; "extract_transcript_with_ytdlp";
    "extract_text_from_vtt"; "extract_transcript_details";
    "generate_gemini_content"; "youtube_link"; "video_id" ]%string.

Definition name_error (name : string) : exn :=
  {| exn_class_of := NameError;
     exn_str := str ("name '" ++ name ++ "' is not defined") |}.

(** Resolving a name that the function does not bind locally. *)
Definition load_global (name : string) : M unit :=
  if existsb (String.eqb name) module_globals then ret tt
  else raise (name_error name).

Definition st_write (msg : pystr) : M unit := emit (StWrite msg).
Definition st_error (msg : pystr) : M unit := emit (StError msg).
Definition st_markdown (msg : pystr) : M unit := emit (StMarkdown msg).

(** ** The program *)

(** Lines 24-28. *)
Definition prompt : pystr :=
  [NL] ++ str "You are a YouTube video summarizer. You will be taking the transcript text"
  ++ [NL] ++ str "and summarizing the entire video and providing the important summary in points"
  ++ [NL] ++ str "within 250 words. Please provide the summary of the text given here:  "
  ++ [NL].

(** Lines 31-47. *)
Definition extract_video_id (rt : Runtime) (url : pystr) : M (option pystr) :=
  try_except
    (parsed_url <- lift (urlparse rt url) ;;
     if contains (str "youtu.be") (netloc parsed_url) then
       let video_id := skipn 1 (path parsed_url) in
       ret (match video_id with [] => None | _ :: _ => Some video_id end)
     else if contains (str "youtube.com") (netloc parsed_url)
             || contains (str "www.youtube.com") (netloc parsed_url) then
       qs <- lift (parse_qs rt (query parsed_url)) ;;
       let video_id := dict_get qs (str "v") in
       ret (match video_id with
            | Some (first :: _) => Some first
            | Some [] | None => None
            end)
     else ret None)
    (fun _ => ret None).

(** Lines 106-134. *)
Definition extract_text_from_vtt (rt : Runtime) (w : World) (vtt_file : pystr)
  : M pystr :=
  try_except
    (content <- lift (read_text w vtt_file) ;;
     st_write (str "Debug: VTT file content preview: "
               ++ firstn 200 content ++ str "...") ;;
     let text := vtt_clean (unicode rt) content in
     st_write (str "Debug: Extracted text length: "
               ++ str_of_nat (List.length text) ++ str " characters") ;;
     if List.length text <? 10
     then ret (too_short_prefix ++ firstn 500 content)
     else ret text)
    (fun e => ret (str "Error reading VTT file: " ++ exn_str e)).

(** Lines 78-85 and 92-99: the first downloaded [.en.vtt] file, if any. *)
Fixpoint first_vtt (rt : Runtime) (w : World) (temp_dir : pystr)
    (files : list pystr) : M pystr :=
  match files with
  | [] =>
      st_write (str "VTT file not found after download") ;;
      ret (str "VTT file not found")
  | file :: rest =>
      if endswith (str ".en.vtt") file then
        let vtt_file := temp_dir ++ str "/" ++ file in
        st_write (str "Found VTT file: " ++ file) ;;
        extract_text_from_vtt rt w vtt_file
      else first_vtt rt w temp_dir rest
  end.

(** Lines 50-104. The option dictionary of line 56 is built entry by
    entry; its last value, line 62, is [os.path.join(...)], which first
    resolves the name [os]. *)
Definition extract_transcript_with_ytdlp (rt : Runtime) (w : World)
    (video_url : pystr) : M pystr :=
  try_except
    (emit MakeTempDir ;;
     temp_dir <- lift (temporary_directory w) ;;
     load_global "os" ;;
     emit (YdlExtractInfo video_url) ;;
     info <- lift (extract_info w video_url) ;;
     if dict_has (subtitles info) (str "en") then
       st_write (str "Found manual English subtitles, downloading...") ;;
       emit (YdlDownload video_url) ;;
       lift (download w video_url) ;;
       load_global "os" ;;
       files <- lift (listdir w temp_dir) ;;
       first_vtt rt w temp_dir files
     else if dict_has (automatic_captions info) (str "en") then
       st_write (str "Found auto-generated English captions, downloading...") ;;
       emit (YdlDownload video_url) ;;
       lift (download w video_url) ;;
       load_global "os" ;;
       files <- lift (listdir w temp_dir) ;;
       first_vtt rt w temp_dir files
     else ret (str "No English subtitles found"))
    (fun e => ret (str "yt-dlp error: " ++ exn_str e)).

(** Line 146: the test that accepts the primary result. *)
Definition accepts_primary (result : pystr) : bool :=
  (100 <? List.length result)
  && negb (startswith (str "Error") result)
  && negb (startswith (str "No") result).

(** [i["text"]] *)
Definition cue_text (i : dict pystr) : outcome pystr :=
  match dict_get i (str "text") with
  | Some t => Ok t
  | None => Raise {| exn_class_of := KeyError; exn_str := str "'text'" |}
  end.

(** [[i["text"] for i in transcript_data]] *)
Fixpoint cue_texts (transcript_data : list (dict pystr)) : outcome (list pystr) :=
  match transcript_data with
  | [] => Ok []
  | i :: rest =>
      match cue_text i with
      | Raise e => Raise e
      | Ok t =>
          match cue_texts rest with
          | Raise e => Raise e
          | Ok ts => Ok (t :: ts)
          end
      end
  end.

(** Lines 153-156: the secondary strategy. *)
Definition api_transcript_text (w : World) (video_id : pystr) : M pystr :=
  emit (ApiListTranscripts video_id) ;;
  transcript_list <- lift (list_transcripts w video_id) ;;
  transcript <- lift (find_transcript transcript_list [str "en"]) ;;
  transcript_data <- lift (fetch transcript) ;;
  texts <- lift (cue_texts transcript_data) ;;
  ret (join (str " ") texts).

Definition both_failed_prefix : pystr :=
  str "Both methods failed. yt-dlp result: ".

(** Lines 151-161: the [else] branch. *)
Definition fallback_to_api (w : World) (video_id result : pystr) : M pystr :=
  st_write (str "yt-dlp failed, trying youtube-transcript-api...") ;;
  try_except
    (transcript_text <- api_transcript_text w video_id ;;
     st_write (str "Success with youtube-transcript-api!") ;;
     ret transcript_text)
    (fun api_error =>
       st_write (str "youtube-transcript-api also failed: " ++ exn_str api_error) ;;
       ret (both_failed_prefix ++ result)).

(** Lines 145-161: what is done with the primary result. *)
Definition after_primary (w : World) (video_id result : pystr) : M pystr :=
  if accepts_primary result then
    st_write ([9989%N] ++ str " Successfully extracted transcript with yt-dlp!") ;;
    ret result
  else fallback_to_api w video_id result.

Definition error_unavailable : pystr :=
  str "Error: The video is unavailable or private.".
Definition error_disabled : pystr :=
  str "Error: Transcripts are disabled for this video.".

(** Lines 163-168: the handlers of the outer [try]. *)
Definition details_handler (e : exn) : M pystr :=
  match exn_class_of e with
  | VideoUnavailable => ret error_unavailable
  | TranscriptsDisabled => ret error_disabled
  | _ => ret (str "Error: " ++ exn_str e)
  end.

(** Lines 137-168 (the spec's [acquire]). *)
Definition extract_transcript_details (rt : Runtime) (w : World)
    (video_id : pystr) : M pystr :=
  try_except
    (let video_url := str "https://www.youtube.com/watch?v=" ++ video_id in
     st_write (str "Using yt-dlp to extract transcript...") ;;
     result <- extract_transcript_with_ytdlp rt w video_url ;;
     after_primary w video_id result)
    details_handler.

(** Lines 171-174. *)
Definition generate_gemini_content (w : World) (transcript_text prompt : pystr)
  : M pystr :=
  emit (GeminiGenerate (prompt ++ transcript_text)) ;;
  lift (generate_content w (prompt ++ transcript_text)).

(** Lines 188-200: the handler of the "Get Detailed Notes" button. *)
Definition get_detailed_notes (rt : Runtime) (w : World) (youtube_link : pystr)
  : M unit :=
  video_id <- extract_video_id rt youtube_link ;;
  match video_id with
  | None | Some [] =>
      st_error ([10060%N] ++ str " Invalid YouTube link format.")
  | Some video_id =>
      transcript_text <- extract_transcript_details rt w video_id ;;
      if startswith (str "Error:") transcript_text then
        st_error transcript_text
      else
        summary <- generate_gemini_content w transcript_text prompt ;;
        st_markdown (str "## " ++ [128221%N] ++ str " Detailed Notes:") ;;
        st_write summary
  end.

(** ** The page script

    Streamlit runs the module top to bottom on every interaction; the
    values of the two text inputs and of the button are the inputs of one
    run. *)

(** What a run puts on the page or sends out, beyond the events of the
    pipeline. *)
Inductive widget :=
| Pipeline (e : event)
| SidebarHeader (msg : pystr)
| SidebarTextInput (label : pystr)
| SidebarSuccess (msg : pystr)
| SidebarError (msg : pystr)
| GenaiConfigure (api_key : pystr)
| StInfo (msg : pystr)
| StTitle (msg : pystr)
| StTextInput (label : pystr)
| StImage (url : pystr)
| StButton (label : pystr).

(** How a run ends: at the last line, at an [st.stop()], or with an
    exception that nothing catches. *)
Inductive ending :=
| Completed
| Stopped
| Crashed (e : exn).

Record Session := {
  api_key : pystr;        (* value of the sidebar input, line 9 *)
  youtube_link : pystr;   (* value of the text input, line 179 *)
  clicked : bool          (* st.button(...), line 188 *)
}.

Definition shown (tr : trace) : list widget := map Pipeline tr.

(** Lines 8-9. *)
Definition sidebar : list widget :=
  [ SidebarHeader ([128273%N] ++ str " API Configuration");
    SidebarTextInput (str "Enter your Google API Key:") ].

(** Lines 181-186. *)
Definition thumbnail (rt : Runtime) (youtube_link : pystr)
  : outcome unit * list widget :=
  match youtube_link with
  | [] => (Ok tt, [])
  | _ :: _ =>
      match extract_video_id rt youtube_link [] with
      | (Ok (Some (c :: video_id)), tr) =>
          (Ok tt,
           shown tr ++ [StImage (str "http://img.youtube.com/vi/"
                                 ++ (c :: video_id) ++ str "/0.jpg")])
      | (Ok (Some []), tr) | (Ok None, tr) =>
          (Ok tt,
           shown tr ++ [Pipeline (StError ([10060%N]
                          ++ str " Invalid YouTube URL. Please check and try again."))])
      | (Raise e, tr) => (Raise e, shown tr)
      end
  end.

(** Lines 202-206. *)
Definition credit : list widget :=
  [ Pipeline (StMarkdown (str "---"));
    Pipeline (StMarkdown (str "<div style=" ++ [34%N]
                          ++ str "text-align: right; color: gray; font-size: 0.8em;"
                          ++ [34%N] ++ str ">Developed by Subramani</div>")) ].

(** Lines 7-21 and 176-206: one run of the module. [configure] is
    [genai.configure]. *)
Definition app_py (rt : Runtime) (w : World) (configure : pystr -> outcome unit)
    (s : Session) : ending * list widget :=
  match api_key s with
  | [] =>
      (Stopped,
       sidebar
       ++ [ Pipeline (StError ([10060%N]
              ++ str " Please enter your Google API key in the sidebar to continue!"));
            StInfo ([128161%N]
              ++ str " Get your free API key from: https://makersuite.google.com/app/apikey") ])
  | _ :: _ =>
      match configure (api_key s) with
      | Raise e =>
          (Stopped,
           sidebar
           ++ [ GenaiConfigure (api_key s);
                SidebarError ([10060%N] ++ str " Invalid API key: " ++ exn_str e) ])
      | Ok _ =>
          let top :=
            sidebar
            ++ [ GenaiConfigure (api_key s);
                 SidebarSuccess ([9989%N] ++ str " API key configured!");
                 StTitle ([127909%N] ++ str " YouTube Video Summarizer");
                 StTextInput (str "Enter YouTube Video Link:") ] in
          match thumbnail rt (youtube_link s) with
          | (Raise e, page) => (Crashed e, top ++ page)
          | (Ok _, page) =>
              let top := top ++ page ++ [StButton (str "Get Detailed Notes")] in
              if clicked s then
                match get_detailed_notes rt w (youtube_link s) [] with
                | (Ok _, tr) => (Completed, top ++ shown tr ++ credit)
                | (Raise e, tr) => (Crashed e, top ++ shown tr)
                end
              else (Completed, top ++ credit)
          end
      end
  end.

(** ** Concrete instances

    A small interpreter and a few worlds on which the definitions can be
    run.  The theorems below hold for every [Runtime] and every [World];
    these instances only serve as concrete inputs. *)

Module Reference.

(** Tables that classify nothing above ASCII; on ASCII text every
    interpreter agrees with them. *)
Definition ascii_tables : Unicode :=
  {| uni_decimal := fun _ => false; uni_space := fun _ => false |}.

(** [break_at p s]: the part of [s] before the first character of class
    [p], and the rest starting at that character. *)
Fixpoint break_at (p : char -> bool) (s : pystr) : pystr * pystr :=
  match s with
  | [] => ([], [])
  | c :: s' =>
      if p c then ([], s)
      else let (a, b) := break_at p s' in (c :: a, b)
  end.

Definition in_range (lo hi c : char) : bool := N.leb lo c && N.leb c hi.

Definition scheme_char (c : char) : bool :=
  (in_range 97 122 c || in_range 65 90 c || in_range 48 57 c
   || is_char "+" c || is_char "-" c || is_char "." c)%N.

Definition lower (s : pystr) : pystr :=
  map (fun c => if in_range 65 90 c then c + 32 else c)%N s.

(** URL splitting for plain ASCII URLs
    [scheme://netloc/path?query#fragment], after [urllib.parse.urlsplit];
    [;parameters] are left in the path. *)
Definition urlparse (url : pystr) : outcome ParseResult :=
  let '(sch, url) :=
    match break_at (is_char ":") url with
    | (c :: before, _ :: after) =>
        if forallb scheme_char (c :: before)
        then (lower (c :: before), after) else ([], url)
    | _ => ([], url)
    end in
  let '(loc, url) :=
    if startswith (str "//") url
    then break_at (fun c => is_char "/" c || is_char "?" c || is_char "#" c)
           (skipn 2 url)
    else ([], url) in
  if xorb (existsb (is_char "[") loc) (existsb (is_char "]") loc)
  then Raise {| exn_class_of := ValueError; exn_str := str "Invalid IPv6 URL" |}
  else
    let '(url, frag) := break_at (is_char "#") url in
    let '(url, qry) := break_at (is_char "?") url in
    Ok {| scheme := sch; netloc := loc; path := url; params := [];
          query := skipn 1 qry; fragment := skipn 1 frag |}.

(** [s.split(c)] *)
Fixpoint split_on (c : ascii) (s : pystr) : list pystr :=
  match s with
  | [] => [[]]
  | x :: s' =>
      if is_char c x then [] :: split_on c s'
      else match split_on c s' with
           | [] => [[x]]
           | first :: rest => (x :: first) :: rest
           end
  end.

Fixpoint dict_append (d : dict (list pystr)) (k v : pystr)
  : dict (list pystr) :=
  match d with
  | [] => [(k, [v])]
  | (k', vs) :: d' =>
      if pystr_eqb k' k then (k', vs ++ [v]) :: d'
      else (k', vs) :: dict_append d' k v
  end.

Definition plus_to_space (s : pystr) : pystr :=
  map (fun c => if is_char "+" c then SP else c) s.

(** Query strings without percent escapes, after
    [urllib.parse.parse_qs]: fields are separated by [&], a field
    without [=] or with an empty value is dropped. *)
Definition parse_qs (qs : pystr) : outcome (dict (list pystr)) :=
  Ok (fold_left
        (fun d name_value =>
           match break_at (is_char "=") name_value with
           | (name, _ :: (_ :: _) as value) =>
               dict_append d (plus_to_space name) (plus_to_space value)
           | _ => d
           end)
        (split_on "&" qs) []).

Definition runtime : Runtime :=
  Build_Runtime ascii_tables urlparse parse_qs.

Definition LF : string := String (ascii_of_nat 10) EmptyString.

(** A caption file with two numbered cues. *)
Definition two_cues : pystr :=
  str ("WEBVTT" ++ LF ++ LF
       ++ "1" ++ LF ++ "00:00:01.000 --> 00:00:02.000" ++ LF
       ++ "hello <b>world</b>" ++ LF ++ LF
       ++ "2" ++ LF ++ "00:00:03.000 --> 00:00:04.000" ++ LF
       ++ "goodbye friends" ++ LF)%string.

(** A world in which yt-dlp would find and download an English caption
    file, and whose transcript service answers [api]. *)
Definition world (api : outcome TranscriptList) : World :=
  {| temporary_directory := Ok (str "/tmp/tmpk3x9");
     extract_info := fun _ =>
       Ok {| subtitles := [(str "en", tt)]; automatic_captions := [] |};
     download := fun _ => Ok tt;
     listdir := fun _ => Ok [str "video.en.vtt"];
     read_text := fun _ => Ok two_cues;
     list_transcripts := fun _ => api;
     generate_content := fun _ => Ok (str "- a summary") |}.

Definition failing (c : exn_class) (msg : string) : exn :=
  {| exn_class_of := c; exn_str := str msg |}.

(** The service reports the video as unavailable. *)
Definition unavailable : World :=
  world (Raise (failing VideoUnavailable "The video is no longer available")).

(** The service reports that transcripts are disabled. *)
Definition disabled : World :=
  world (Raise (failing TranscriptsDisabled "Subtitles are disabled for this video")).

(** The service has no English transcript. *)
Definition no_english : World :=
  world (Ok {| find_transcript := fun _ =>
                 Raise (failing NoTranscriptFound "No transcripts were found") |}).

(** The service has an English transcript without cues. *)
Definition no_cues : World :=
  world (Ok {| find_transcript := fun _ => Ok {| fetch := Ok [] |} |}).

(** The service has an English transcript with two cues. *)
Definition two_api_cues : World :=
  world (Ok {| find_transcript := fun _ =>
                 Ok {| fetch := Ok [ [(str "text", str "hello world")];
                                     [(str "text", str "goodbye friends")] ] |} |}).

End Reference.

(** ** Vocabulary of the properties *)

(** What the primary strategy returns: the message of the [NameError] of
    line 62, or of the failure to create the scratch directory. *)
Definition ytdlp_failure (w : World) : pystr :=
  str "yt-dlp error: "
  ++ match temporary_directory w with
     | Ok _ => exn_str (name_error "os")
     | Raise e => exn_str e
     end.

(** The answer of the secondary strategy, lines 153-156. *)
Definition secondary (w : World) (video_id : pystr) : outcome pystr :=
  result_of (api_transcript_text w video_id) [].

(** Some position of [s] starts a match of [r]. *)
Fixpoint has_match (r : regex) (prev : option char) (s : pystr) : bool :=
  match match_at r prev s with
  | Some _ => true
  | None =>
      match s with
      | [] => false
      | c :: s' => has_match r (Some c) s'
      end
  end.

(** No timestamp range, inline tag, header token or cue-number line. *)
Definition no_cue_markup (u : Unicode) (x : pystr) : bool :=
  negb (has_match (re_timestamp u) None x)
  && negb (has_match re_tag None x)
  && negb (has_match re_header None x)
  && negb (has_match (re_cue_number u) None x).

(** Every whitespace character is a space that is followed by a
    character that is not whitespace. *)
Fixpoint single_spaced (u : Unicode) (s : pystr) : bool :=
  match s with
  | [] => true
  | c :: s' =>
      (if is_space u c
       then char_eqb c SP
            && match s' with
               | [] => false
               | c' :: _ => negb (is_space u c')
               end
       else true)
      && single_spaced u s'
  end.

(** Already-flat text: one line, words separated by single spaces, no
    whitespace at either end. *)
Definition flat (u : Unicode) (x : pystr) : bool :=
  match x with
  | [] => true
  | c :: _ => negb (is_space u c)
  end && single_spaced u x.

(** The first item of [r] does not take the character [c]. *)
Definition rejects (r : regex) (c : char) : bool :=
  match atoms r with
  | One p :: _ | Many p :: _ => negb (p c)
  | [] => false
  end.

(** The number of leading characters of [s] in the class [p]. *)
Fixpoint leading (p : char -> bool) (s : pystr) : nat :=
  match s with
  | c :: s' => if p c then S (leading p s') else 0
  | [] => 0
  end.

(** Every whitespace character is a space, and what follows it, if
    anything, is not whitespace. *)
Fixpoint loose (u : Unicode) (s : pystr) : bool :=
  match s with
  | [] => true
  | c :: s' =>
      (if is_space u c
       then char_eqb c SP
            && match s' with
               | [] => true
               | c' :: _ => negb (is_space u c')
               end
       else true)
      && loose u s'
  end.

(** A request that leaves the machine for yt-dlp. *)
Definition asks_ytdlp (e : event) : bool :=
  match e with
  | YdlExtractInfo _ | YdlDownload _ => true
  | _ => false
  end.

(** A request to the transcript service or to the summarisation
    service. *)
Definition is_request (x : widget) : bool :=
  match x with
  | Pipeline (ApiListTranscripts _) | Pipeline (GeminiGenerate _)
  | Pipeline (YdlExtractInfo _) | Pipeline (YdlDownload _) => true
  | _ => false
  end.

(** ** How the acquisition runs *)

Ltac run_m :=
  unfold result_of, trace_of, st_write, st_error, st_markdown,
    bind, ret, raise, emit, lift, try_except; simpl.

(** Line 62 cannot get past the name [os]. *)
Lemma os_is_unbound : load_global "os" = raise (name_error "os").
Proof. reflexivity. Qed.

Lemma ytdlp_run (rt : Runtime) (w : World) (video_url : pystr) (tr : trace) :
  extract_transcript_with_ytdlp rt w video_url tr
  = (Ok (ytdlp_failure w), tr ++ [MakeTempDir]).
Proof.
  unfold extract_transcript_with_ytdlp, ytdlp_failure.
  rewrite os_is_unbound. run_m.
  destruct (temporary_directory w); reflexivity.
Qed.

Lemma ytdlp_failure_marked (w : World) :
  startswith (str "yt-dlp error:") (ytdlp_failure w) = true.
Proof. reflexivity. Qed.

Lemma ytdlp_failure_nonempty (w : World) : ytdlp_failure w <> [].
Proof. discriminate. Qed.

Lemma api_run (w : World) (video_id : pystr) (tr : trace) :
  api_transcript_text w video_id tr
  = (secondary w video_id, tr ++ [ApiListTranscripts video_id]).
Proof.
  unfold secondary, api_transcript_text. run_m.
  destruct (list_transcripts w video_id) as [tl|]; simpl; trivial.
  destruct (find_transcript tl [str "en"]) as [t|]; simpl; trivial.
  destruct (fetch t) as [cues|]; simpl; trivial.
  destruct (cue_texts cues); reflexivity.
Qed.

Lemma fallback_result (w : World) (video_id result : pystr) (tr : trace) :
  result_of (fallback_to_api w video_id result) tr
  = match secondary w video_id with
    | Ok text => Ok text
    | Raise _ => Ok (both_failed_prefix ++ result)
    end.
Proof.
  unfold fallback_to_api, result_of, try_except, bind, st_write, emit.
  rewrite api_run. destruct (secondary w video_id); reflexivity.
Qed.

Lemma fallback_asks_api (w : World) (video_id result : pystr) (tr : trace) :
  In (ApiListTranscripts video_id)
     (trace_of (fallback_to_api w video_id result) tr).
Proof.
  unfold fallback_to_api, trace_of, try_except, bind, st_write, emit.
  rewrite api_run.
  destruct (secondary w video_id); simpl;
    rewrite !in_app_iff; simpl; tauto.
Qed.

(** The outer handlers of lines 163-168 never run: nothing inside the
    outer [try] raises. *)
Lemma details_run (rt : Runtime) (w : World) (video_id : pystr) (tr : trace) :
  extract_transcript_details rt w video_id tr
  = after_primary w video_id (ytdlp_failure w)
      (tr ++ [StWrite (str "Using yt-dlp to extract transcript...")]
          ++ [MakeTempDir]).
Proof.
  unfold extract_transcript_details, try_except, bind, st_write, emit.
  rewrite ytdlp_run, <- app_assoc.
  unfold after_primary.
  destruct (accepts_primary (ytdlp_failure w)).
  - reflexivity.
  - remember (fallback_to_api _ _ _ _) as o eqn:E.
    assert (H : exists t, fst o = Ok t).
    { subst o. pose proof (fallback_result w video_id (ytdlp_failure w)) as F.
      unfold result_of in F. rewrite F.
      destruct (secondary w video_id); eauto. }
    destruct o as [[t|e] tr']; [reflexivity|].
    destruct H as [t H]; discriminate.
Qed.

Lemma name_error_not_accepted (w : World) (d : pystr) :
  temporary_directory w = Ok d -> accepts_primary (ytdlp_failure w) = false.
Proof. intros E. unfold ytdlp_failure. rewrite E. reflexivity. Qed.

(** ** The transcript acquisition engine *)

(** C1 (defect). With the secondary strategy reporting "video
    unavailable" or "transcripts disabled", [extract_transcript_details]
    does not return the dedicated message of line 164 or 166: the blanket
    handler of line 159 takes the exception first and the composite value
    of line 161 comes back. *)
Theorem unavailable_video_yields_composite :
  forall rt : Runtime,
    let composite :=
      str "Both methods failed. yt-dlp result: yt-dlp error: name 'os' is not defined" in
    (secondary Reference.unavailable (str "abc123")
       = Raise (Reference.failing VideoUnavailable "The video is no longer available")
     /\ result_of (extract_transcript_details rt Reference.unavailable (str "abc123")) []
        = Ok composite
     /\ composite <> error_unavailable)
    /\
    (secondary Reference.disabled (str "abc123")
       = Raise (Reference.failing TranscriptsDisabled "Subtitles are disabled for this video")
     /\ result_of (extract_transcript_details rt Reference.disabled (str "abc123")) []
        = Ok composite
     /\ composite <> error_disabled).
Proof.
  intros rt composite. unfold result_of. rewrite !details_run.
  split; (split; [reflexivity | split; [reflexivity | discriminate]]).
Qed.

(** C2. For every URL and every world the primary strategy returns a
    string that begins with "yt-dlp error:" -- the [NameError] of line 62
    whenever the scratch directory could be created -- without having
    asked yt-dlp for anything; so the text [extract_transcript_details]
    returns is the primary's failure string passed through, the answer of
    the secondary strategy, or the composite failure, and with the
    [NameError] only the latter two. *)
Theorem ytdlp_strategy_always_fails :
  forall (rt : Runtime) (w : World) (video_url video_id : pystr) (tr : trace),
    extract_transcript_with_ytdlp rt w video_url tr
      = (Ok (ytdlp_failure w), tr ++ [MakeTempDir])
    /\ startswith (str "yt-dlp error:") (ytdlp_failure w) = true
    /\ match temporary_directory w with
       | Ok _ =>
           ytdlp_failure w = str "yt-dlp error: name 'os' is not defined"
           /\ exists text,
               result_of (extract_transcript_details rt w video_id) tr = Ok text
               /\ (secondary w video_id = Ok text
                   \/ text = both_failed_prefix ++ ytdlp_failure w)
       | Raise e =>
           ytdlp_failure w = str "yt-dlp error: " ++ exn_str e
           /\ exists text,
               result_of (extract_transcript_details rt w video_id) tr = Ok text
               /\ (text = ytdlp_failure w
                   \/ secondary w video_id = Ok text
                   \/ text = both_failed_prefix ++ ytdlp_failure w)
       end.
Proof.
  intros rt w video_url video_id tr.
  split; [apply ytdlp_run|]. split; [apply ytdlp_failure_marked|].
  unfold result_of. rewrite details_run. unfold after_primary.
  destruct (temporary_directory w) as [d|e] eqn:T.
  - split; [unfold ytdlp_failure; rewrite T; reflexivity|].
    rewrite (name_error_not_accepted w T).
    pose proof (fallback_result w video_id (ytdlp_failure w)) as F.
    unfold result_of in F. rewrite F.
    destruct (secondary w video_id) as [t|x]; eauto.
  - split; [unfold ytdlp_failure; rewrite T; reflexivity|].
    destruct (accepts_primary (ytdlp_failure w)).
    + eexists; split; [reflexivity | auto].
    + pose proof (fallback_result w video_id (ytdlp_failure w)) as F.
      unfold result_of in F. rewrite F.
      destruct (secondary w video_id) as [t|x]; eauto.
Qed.

(** C3 (defect). The composite value of line 161 does not begin with the
    marker "Error:" that line 195 tests, so the button handler sends it,
    after the prompt, to the summarisation service and reports no
    error. *)
Theorem composite_failure_is_summarised :
  let link := str "https://youtu.be/abc123" in
  let failure :=
    str "Both methods failed. yt-dlp result: yt-dlp error: name 'os' is not defined" in
  let shown := trace_of (get_detailed_notes Reference.runtime Reference.no_english link) [] in
  result_of (extract_transcript_details Reference.runtime Reference.no_english (str "abc123")) []
    = Ok failure
  /\ startswith (str "Error:") failure = false
  /\ In (GeminiGenerate (prompt ++ failure)) shown
  /\ (forall msg, ~ In (StError msg) shown).
Proof.
  cbv zeta. split; [|split; [|split]].
  - unfold result_of. rewrite details_run. reflexivity.
  - reflexivity.
  - vm_compute. tauto.
  - intros msg. vm_compute. intuition discriminate.
Qed.

(** C4, as the code has it. Once the primary result is turned down, any
    exception of the secondary strategy other than the two named ones
    gives the composite value: the fixed sentence followed by the
    primary's own, non-empty failure string.  A secondary strategy that
    returns normally, even with empty text, has its text returned. *)
Theorem secondary_exception_yields_composite :
  forall (rt : Runtime) (w : World) (video_id : pystr) (e : exn) (tr : trace),
    accepts_primary (ytdlp_failure w) = false ->
    secondary w video_id = Raise e ->
    exn_class_of e <> VideoUnavailable ->
    exn_class_of e <> TranscriptsDisabled ->
    result_of (extract_transcript_details rt w video_id) tr
      = Ok (str "Both methods failed. yt-dlp result: " ++ ytdlp_failure w)
    /\ ytdlp_failure w <> []
    /\ fst (extract_transcript_with_ytdlp rt w
              (str "https://www.youtube.com/watch?v=" ++ video_id) tr)
       = Ok (ytdlp_failure w).
Proof.
  intros rt w video_id e tr A S _ _.
  split; [|split].
  - unfold result_of. rewrite details_run. unfold after_primary. rewrite A.
    pose proof (fallback_result w video_id (ytdlp_failure w)) as F.
    unfold result_of in F. rewrite F, S. reflexivity.
  - apply ytdlp_failure_nonempty.
  - rewrite ytdlp_run. reflexivity.
Qed.

Lemma secondary_exception_yields_composite_witness :
  accepts_primary (ytdlp_failure Reference.no_english) = false
  /\ result_of (extract_transcript_details Reference.runtime Reference.no_english
                  (str "abc123")) []
     = Ok (str "Both methods failed. yt-dlp result: "
           ++ ytdlp_failure Reference.no_english).
Proof.
  split; [reflexivity|].
  apply (@secondary_exception_yields_composite Reference.runtime
           Reference.no_english (str "abc123")
           (Reference.failing NoTranscriptFound "No transcripts were found") []);
    [reflexivity | reflexivity | discriminate | discriminate].
Defined.

(** C4 as the spec words it fails: a secondary strategy that returns empty
    text makes [extract_transcript_details] return the empty text, not a
    composite failure. *)
Lemma empty_secondary_text_is_returned :
  ytdlp_failure Reference.no_cues = str "yt-dlp error: name 'os' is not defined"
  /\ secondary Reference.no_cues (str "abc123") = Ok []
  /\ result_of (extract_transcript_details Reference.runtime Reference.no_cues
                  (str "abc123")) [] = Ok []
  /\ startswith (str "Both methods failed") [] = false.
Proof.
  split; [reflexivity|]. split; [reflexivity|]. split; [|reflexivity].
  unfold result_of. rewrite details_run. reflexivity.
Qed.

(** ** The caption normaliser *)

(** [extract_text_from_vtt] on a readable file is [normalize] of its
    content. *)
Lemma extract_text_from_vtt_reads (rt : Runtime) (w : World)
    (vtt_file content : pystr) (tr : trace) :
  read_text w vtt_file = Ok content ->
  result_of (extract_text_from_vtt rt w vtt_file) tr
  = Ok (normalize (unicode rt) content).
Proof.
  intros R. unfold extract_text_from_vtt, normalize. run_m. rewrite R. simpl.
  destruct (List.length (vtt_clean (unicode rt) content) <? 10); reflexivity.
Qed.

(** C5 (defect). On a caption file with two numbered cues the timestamps,
    the tags and the header go, but the cue numbers stay: line 119 has
    already turned every line feed into a space when line 120 looks for
    digits followed by a line feed. *)
Theorem cue_numbers_survive :
  forall (rt : Runtime) (api : outcome TranscriptList) (vtt_file : pystr),
    result_of (extract_text_from_vtt rt (Reference.world api) vtt_file) []
      = Ok (str "1 hello world 2 goodbye friends")
    /\ normalize (unicode rt) Reference.two_cues
       <> str "hello world goodbye friends".
Proof.
  intros rt api vtt_file.
  rewrite (@extract_text_from_vtt_reads rt _ vtt_file Reference.two_cues)
    by reflexivity.
  assert (E : normalize (unicode rt) Reference.two_cues
              = str "1 hello world 2 goodbye friends")
    by (vm_compute; reflexivity).
  rewrite E. split; [reflexivity | discriminate].
Qed.

Lemma error_marked_not_accepted (result : pystr) :
  startswith (str "Error") result = true -> accepts_primary result = false.
Proof.
  intros H. unfold accepts_primary. rewrite H.
  destruct (100 <? List.length result); reflexivity.
Qed.

(** C7. A caption document whose cleaned text has fewer than 10
    characters is answered by [extract_text_from_vtt] with the diagnostic
    string, which carries the first 500 characters of the raw document.
    [extract_transcript_details] hands whatever
    [extract_transcript_with_ytdlp] returned to the test of line 146; the
    diagnostic fails that test, so the transcript service is asked and
    what comes back is its text, or the composite failure around the
    diagnostic, never the short text.  With the scratch directory made,
    the run of [extract_transcript_details] itself asks the service and
    returns its text or the composite. *)
Theorem short_text_falls_back :
  forall (rt : Runtime) (w : World) (vtt_file content video_id temp_dir : pystr)
         (tr : trace),
    temporary_directory w = Ok temp_dir ->
    read_text w vtt_file = Ok content ->
    List.length (vtt_clean (unicode rt) content) < 10 ->
    let diagnostic := str "Error: Extracted text too short. VTT content: "
                      ++ firstn 500 content in
    let primary :=
      extract_transcript_with_ytdlp rt w
        (str "https://www.youtube.com/watch?v=" ++ video_id)
        (tr ++ [StWrite (str "Using yt-dlp to extract transcript...")]) in
    result_of (extract_text_from_vtt rt w vtt_file) tr = Ok diagnostic
    /\ accepts_primary diagnostic = false
    /\ (exists result,
          fst primary = Ok result
          /\ extract_transcript_details rt w video_id tr
             = after_primary w video_id result (snd primary))
    /\ (forall tr',
          result_of (after_primary w video_id diagnostic) tr'
            = match secondary w video_id with
              | Ok text => Ok text
              | Raise _ => Ok (both_failed_prefix ++ diagnostic)
              end
          /\ In (ApiListTranscripts video_id)
                (trace_of (after_primary w video_id diagnostic) tr'))
    /\ result_of (extract_transcript_details rt w video_id) tr
       = match secondary w video_id with
         | Ok text => Ok text
         | Raise _ => Ok (both_failed_prefix ++ ytdlp_failure w)
         end
    /\ In (ApiListTranscripts video_id)
          (trace_of (extract_transcript_details rt w video_id) tr).
Proof.
  intros rt w vtt_file content video_id temp_dir tr D R L diagnostic primary.
  assert (A : accepts_primary diagnostic = false).
  { apply error_marked_not_accepted. reflexivity. }
  pose proof (name_error_not_accepted w D) as N.
  split; [|split; [exact A|split; [|split; [|split]]]].
  - rewrite (extract_text_from_vtt_reads rt w vtt_file tr R).
    unfold normalize. apply Nat.ltb_lt in L. rewrite L. reflexivity.
  - exists (ytdlp_failure w). unfold primary. rewrite ytdlp_run. cbn [fst snd].
    split; [reflexivity|].
    rewrite details_run, app_assoc. reflexivity.
  - intros tr'. unfold after_primary, trace_of. rewrite A.
    split; [apply fallback_result | apply fallback_asks_api].
  - unfold result_of. rewrite details_run. unfold after_primary. rewrite N.
    apply fallback_result.
  - unfold trace_of. rewrite details_run. unfold after_primary. rewrite N.
    apply fallback_asks_api.
Qed.

Lemma short_text_falls_back_witness :
  let w := {| temporary_directory := Ok (str "/tmp/tmpk3x9");
              extract_info := extract_info Reference.two_api_cues;
              download := fun _ => Ok tt;
              listdir := fun _ => Ok [str "video.en.vtt"];
              read_text := fun _ => Ok (str "WEBVTT");
              list_transcripts := list_transcripts Reference.two_api_cues;
              generate_content := fun _ => Ok [] |} in
  List.length (vtt_clean Reference.ascii_tables (str "WEBVTT")) < 10
  /\ result_of (extract_text_from_vtt Reference.runtime w
                  (str "/tmp/tmpk3x9/video.en.vtt")) []
     = Ok (str "Error: Extracted text too short. VTT content: WEBVTT")
  /\ result_of (extract_transcript_details Reference.runtime w (str "abc123")) []
     = Ok (str "hello world goodbye friends").
Proof.
  cbv zeta.
  assert (L : List.length (vtt_clean Reference.ascii_tables (str "WEBVTT")) < 10)
    by (vm_compute; lia).
  split; [exact L|].
  destruct (@short_text_falls_back Reference.runtime
              {| temporary_directory := Ok (str "/tmp/tmpk3x9");
                 extract_info := extract_info Reference.two_api_cues;
                 download := fun _ => Ok tt;
                 listdir := fun _ => Ok [str "video.en.vtt"];
                 read_text := fun _ => Ok (str "WEBVTT");
                 list_transcripts := list_transcripts Reference.two_api_cues;
                 generate_content := fun _ => Ok [] |}
              (str "/tmp/tmpk3x9/video.en.vtt") (str "WEBVTT") (str "abc123")
              (str "/tmp/tmpk3x9") [] eq_refl eq_refl L)
    as [H1 [_ [_ [_ [H5 _]]]]].
  split; [exact H1 | exact H5].
Defined.

(** ** The identifier extractor *)

Lemma startswith_app_contains (a b s : pystr) :
  startswith (a ++ b) s = true -> contains b s = true.
Proof.
  revert s. induction a as [|x a IH]; intros s H.
  - destruct s; simpl in *; rewrite H; reflexivity.
  - destruct s as [|y s]; simpl in H; [discriminate|].
    apply andb_true_iff in H. destruct H as [_ H].
    simpl. rewrite (IH _ H). apply orb_true_r.
Qed.

Lemma contains_app (a b s : pystr) :
  contains (a ++ b) s = true -> contains b s = true.
Proof.
  induction s as [|y s IH]; intros H.
  - simpl in H. rewrite orb_false_r in H.
    apply (startswith_app_contains a b [] H).
  - simpl in H. apply orb_true_iff in H. destruct H as [H|H].
    + apply (startswith_app_contains a b (y :: s) H).
    + simpl. rewrite (IH H). apply orb_true_r.
Qed.

(** C6, as the code has it. The host test of lines 36 and 40 is a
    substring test on the network location: a URL whose network location
    contains neither "youtu.be" nor "youtube.com" has no identifier. *)
Theorem other_host_has_no_identifier :
  forall (rt : Runtime) (url : pystr) (parsed_url : ParseResult) (tr : trace),
    urlparse rt url = Ok parsed_url ->
    contains (str "youtu.be") (netloc parsed_url) = false ->
    contains (str "youtube.com") (netloc parsed_url) = false ->
    extract_video_id rt url tr = (Ok None, tr).
Proof.
  intros rt url p tr U S L.
  assert (W : contains (str "www.youtube.com") (netloc p) = false).
  { destruct (contains (str "www.youtube.com") (netloc p)) eqn:E; trivial.
    change (str "www.youtube.com") with (str "www." ++ str "youtube.com") in E.
    apply contains_app in E. congruence. }
  unfold extract_video_id. run_m. rewrite U. simpl.
  rewrite S, L, W. reflexivity.
Qed.

Lemma other_host_has_no_identifier_witness :
  extract_video_id Reference.runtime (str "https://example.com/watch?v=abc123") []
  = (Ok None, []).
Proof.
  apply (@other_host_has_no_identifier Reference.runtime
           (str "https://example.com/watch?v=abc123")
           {| scheme := str "https"; netloc := str "example.com";
              path := str "/watch"; params := [];
              query := str "v=abc123"; fragment := [] |} []);
    reflexivity.
Defined.

(** C6 as the spec words it fails: a host that is neither of the two
    recognised ones but contains the name of one is taken for it, so
    [https://notyoutube.com/watch?v=abc123] and
    [https://notyoutu.be/abc123] both give the identifier [abc123]. *)
Lemma unrecognised_host_yields_identifier :
  let recognised host :=
    pystr_eqb host (str "youtu.be")
    || pystr_eqb host (str "youtube.com")
    || pystr_eqb host (str "www.youtube.com") in
  (urlparse Reference.runtime (str "https://notyoutube.com/watch?v=abc123")
     = Ok {| scheme := str "https"; netloc := str "notyoutube.com";
             path := str "/watch"; params := [];
             query := str "v=abc123"; fragment := [] |}
   /\ recognised (str "notyoutube.com") = false
   /\ extract_video_id Reference.runtime
        (str "https://notyoutube.com/watch?v=abc123") []
      = (Ok (Some (str "abc123")), []))
  /\
  (urlparse Reference.runtime (str "https://notyoutu.be/abc123")
     = Ok {| scheme := str "https"; netloc := str "notyoutu.be";
             path := str "/abc123"; params := [];
             query := []; fragment := [] |}
   /\ recognised (str "notyoutu.be") = false
   /\ extract_video_id Reference.runtime (str "https://notyoutu.be/abc123") []
      = (Ok (Some (str "abc123")), [])).
Proof. cbv zeta. repeat split; vm_compute; reflexivity. Qed.

(** C9. On a URL of the canonical host whose query gives the parameter
    [v] the values [ID, ...], the identifier is [ID], whatever other
    parameters the query has. *)
Theorem canonical_url_gives_v :
  forall (rt : Runtime) (url : pystr) (parsed_url : ParseResult)
         (qs : dict (list pystr)) (ID : pystr) (more : list pystr) (tr : trace),
    urlparse rt url = Ok parsed_url ->
    contains (str "youtu.be") (netloc parsed_url) = false ->
    contains (str "youtube.com") (netloc parsed_url) = true ->
    parse_qs rt (query parsed_url) = Ok qs ->
    dict_get qs (str "v") = Some (ID :: more) ->
    extract_video_id rt url tr = (Ok (Some ID), tr).
Proof.
  intros rt url p qs ID more tr U S L Q V.
  unfold extract_video_id. run_m. rewrite U. simpl.
  rewrite S, L. simpl. rewrite Q. simpl. rewrite V. reflexivity.
Qed.

Lemma canonical_url_gives_v_witness :
  extract_video_id Reference.runtime
    (str "https://www.youtube.com/watch?v=abc123&t=30s") []
  = (Ok (Some (str "abc123")), []).
Proof.
  apply (@canonical_url_gives_v Reference.runtime
           (str "https://www.youtube.com/watch?v=abc123&t=30s")
           {| scheme := str "https"; netloc := str "www.youtube.com";
              path := str "/watch"; params := [];
              query := str "v=abc123&t=30s"; fragment := [] |}
           [(str "v", [str "abc123"]); (str "t", [str "30s"])]
           (str "abc123") [] []);
    reflexivity.
Defined.

(** C10. For every string, whatever [urlparse] and [parse_qs] do with it
    (raising included), [extract_video_id] returns normally, with an
    identifier or [None], and leaves no trace. *)
Theorem extract_video_id_never_raises :
  forall (rt : Runtime) (url : pystr) (tr : trace),
    exists video_id : option pystr,
      extract_video_id rt url tr = (Ok video_id, tr).
Proof.
  intros rt url tr. unfold extract_video_id. run_m.
  destruct (urlparse rt url) as [p|e]; simpl; [|eauto].
  destruct (contains (str "youtu.be") (netloc p)); simpl; [eauto|].
  destruct (contains (str "youtube.com") (netloc p)
            || contains (str "www.youtube.com") (netloc p)); simpl; [|eauto].
  destruct (parse_qs rt (query p)) as [qs|e]; simpl; eauto.
Qed.

(** The cases named by the design document, on the reference runtime: a
    URL that [urlparse] refuses, a canonical URL without [v], and the two
    accepted shapes. *)
Example extract_video_id_examples :
  let id_of url := result_of (extract_video_id Reference.runtime (str url)) [] in
  id_of "http://[youtu.be"%string = Ok None
  /\ id_of "https://www.youtube.com/watch?t=30s"%string = Ok None
  /\ id_of "https://youtu.be/"%string = Ok None
  /\ id_of "https://youtu.be/abc123"%string = Ok (Some (str "abc123"))
  /\ id_of "https://www.youtube.com/watch?t=30s&v=abc123"%string = Ok (Some (str "abc123")).
Proof. cbv zeta. repeat split; vm_compute; reflexivity. Qed.

(** ** Flat text *)

Lemma sub_from_no_match (r : regex) (repl s : pystr) :
  forall prev, has_match r prev s = false -> sub_from r repl prev 0 s = s.
Proof.
  induction s as [|c s IH]; intros prev H; simpl in *.
  - destruct (match_at r prev []); [discriminate | reflexivity].
  - destruct (match_at r prev (c :: s)); [discriminate|].
    rewrite (IH _ H). reflexivity.
Qed.

Lemma re_sub_no_match (r : regex) (repl s : pystr) :
  has_match r None s = false -> re_sub r repl s = s.
Proof. apply sub_from_no_match. Qed.

Lemma has_match_any_prev (r : regex) (s : pystr) (c : char) :
  has_match r None s = false -> has_match r (Some c) s = false.
Proof.
  assert (P : forall t, match_at r None t = None -> match_at r (Some c) t = None).
  { intros t. unfold match_at. simpl. rewrite andb_false_r.
    destruct (bol r && negb (char_eqb c NL)); trivial. }
  destruct s as [|c0 s]; simpl; intros H.
  - destruct (match_at r None []) eqn:E; [discriminate|].
    rewrite (P _ E). reflexivity.
  - destruct (match_at r None (c0 :: s)) eqn:E; [discriminate|].
    rewrite (P _ E). exact H.
Qed.

Lemma single_spaced_tail (u : Unicode) (c : char) (s : pystr) :
  single_spaced u (c :: s) = true -> single_spaced u s = true.
Proof. simpl. intros H. apply andb_true_iff in H. tauto. Qed.

Lemma single_spaced_space (u : Unicode) (c : char) (s : pystr) :
  single_spaced u (c :: s) = true -> is_space u c = true ->
  c = SP /\ exists c' s', s = c' :: s' /\ is_space u c' = false.
Proof.
  simpl. intros H W. rewrite W in H.
  apply andb_true_iff in H. destruct H as [H _].
  apply andb_true_iff in H. destruct H as [E H].
  split; [apply N.eqb_eq, E|].
  destruct s as [|c' s']; [discriminate|].
  exists c', s'. split; trivial. apply negb_true_iff, H.
Qed.

(** Line 123 leaves single-spaced text as it is. *)
Lemma spaces_step_on_single_spaced (u : Unicode) (s : pystr) :
  forall prev, single_spaced u s = true ->
               sub_from (re_spaces u) [SP] prev 0 s = s.
Proof.
  induction s as [|c s IH]; intros prev H; [reflexivity|].
  pose proof (single_spaced_tail _ _ _ H) as T.
  cbn [sub_from]. unfold match_at. cbn [re_spaces bol atoms andb match_atoms match_many].
  destruct (is_space u c) eqn:W.
  - destruct (single_spaced_space _ _ _ H W) as [-> [c' [s' [-> W']]]].
    cbn [match_many]. rewrite W'. cbn [option_map app].
    rewrite (IH _ T). reflexivity.
  - rewrite (IH _ T). reflexivity.
Qed.

Lemma single_spaced_no_newline (u : Unicode) (s : pystr) :
  forall prev, single_spaced u s = true -> has_match re_newlines prev s = false.
Proof.
  induction s as [|c s IH]; intros prev H; [reflexivity|].
  pose proof (single_spaced_tail _ _ _ H) as T.
  cbn [has_match]. unfold match_at.
  cbn [re_newlines bol atoms andb match_atoms match_many].
  destruct (char_eqb NL c) eqn:E.
  - apply N.eqb_eq in E. subst c.
    destruct (single_spaced_space u _ _ H eq_refl) as [X _]. discriminate.
  - apply IH, T.
Qed.

Lemma single_spaced_last (u : Unicode) (s : pystr) (c : char) :
  single_spaced u (s ++ [c]) = true -> is_space u c = false.
Proof.
  induction s as [|a s IH]; intros H.
  - simpl in H. destruct (is_space u c); [|reflexivity].
    rewrite andb_false_r in H. discriminate.
  - apply IH. exact (single_spaced_tail _ _ _ H).
Qed.

Lemma strip_flat (u : Unicode) (x : pystr) : flat u x = true -> strip u x = x.
Proof.
  unfold flat, strip, rstrip. intros H.
  apply andb_true_iff in H. destruct H as [F S].
  assert (L : lstrip u x = x).
  { destruct x as [|c x]; [reflexivity|]. simpl.
    apply negb_true_iff in F. rewrite F. reflexivity. }
  rewrite L. clear L F.
  destruct x as [|c x] using rev_ind; [reflexivity|].
  rewrite rev_app_distr. simpl.
  rewrite (single_spaced_last _ _ _ S).
  change (c :: rev x) with (rev [c] ++ rev x).
  rewrite <- rev_app_distr. apply rev_involutive.
Qed.

(** On flat text without markup the six substitutions and the strip
    change nothing. *)
Lemma vtt_clean_flat (u : Unicode) (x : pystr) :
  flat u x = true -> no_cue_markup u x = true -> vtt_clean u x = x.
Proof.
  intros F K. unfold no_cue_markup in K.
  repeat (apply andb_true_iff in K; destruct K as [K ?]).
  repeat match goal with
         | H : negb _ = true |- _ => apply negb_true_iff in H
         end.
  pose proof F as F'. unfold flat in F'.
  apply andb_true_iff in F'. destruct F' as [_ S].
  unfold vtt_clean.
  rewrite (re_sub_no_match _ _ _ K).
  rewrite (re_sub_no_match _ _ _ H1).
  rewrite (re_sub_no_match _ _ _ H0).
  rewrite (re_sub_no_match _ _ _ (single_spaced_no_newline u x None S)).
  rewrite (re_sub_no_match _ _ _ H).
  unfold re_sub. rewrite (spaces_step_on_single_spaced u x None S).
  apply strip_flat, F.
Qed.

Lemma single_spaced_cons (u : Unicode) (c : char) (s : pystr) :
  single_spaced u (c :: s)
  = (if is_space u c
     then char_eqb c SP
          && match s with
             | [] => false
             | c' :: _ => negb (is_space u c')
             end
     else true)
    && single_spaced u s.
Proof. reflexivity. Qed.

Lemma single_spaced_app (u : Unicode) (a b : pystr) (c : char) :
  single_spaced u a = true ->
  is_space u c = false ->
  single_spaced u (c :: b) = true ->
  single_spaced u (a ++ SP :: c :: b) = true.
Proof.
  intros A C B. induction a as [|a0 a IH].
  - cbn [app]. rewrite single_spaced_cons, B, C. reflexivity.
  - pose proof (single_spaced_tail _ _ _ A) as T.
    cbn [app]. rewrite single_spaced_cons, (IH T), andb_true_r.
    destruct (is_space u a0) eqn:W; [|reflexivity].
    destruct (single_spaced_space _ _ _ A W) as [-> [c' [s' [-> W']]]].
    cbn [app]. rewrite W'. reflexivity.
Qed.

(** The diagnostic of line 129 in front of flat text is flat text. *)
Lemma flat_diagnostic (u : Unicode) (x : pystr) :
  x <> [] -> flat u x = true -> flat u (too_short_prefix ++ x) = true.
Proof.
  intros N F. destruct x as [|c x]; [congruence|].
  unfold flat in *. apply andb_true_iff in F. destruct F as [C S].
  apply negb_true_iff in C.
  change (too_short_prefix ++ c :: x)
    with (str "Error: Extracted text too short. VTT content:" ++ SP :: c :: x).
  apply andb_true_iff. split; [reflexivity|].
  apply single_spaced_app; [vm_compute; reflexivity | exact C | exact S].
Qed.

Lemma match_at_rejected (r : regex) (prev : option char) (c : char) (s : pystr) :
  rejects r c = true -> match_at r prev (c :: s) = None.
Proof.
  unfold rejects, match_at.
  destruct (atoms r) as [|[p|p] l]; [discriminate| |];
    intros H; apply negb_true_iff in H; cbn [match_atoms match_many];
    rewrite H; destruct (bol r && negb (at_bol prev)); reflexivity.
Qed.

Lemma has_match_skip (r : regex) (a : pystr) (c : char) (b : pystr) :
  forall prev,
    forallb (rejects r) (a ++ [c]) = true ->
    has_match r prev ((a ++ [c]) ++ b) = has_match r (Some c) b.
Proof.
  induction a as [|a0 a IH]; intros prev H; cbn [app forallb] in *;
    apply andb_true_iff in H; destruct H as [H1 H2];
    cbn [has_match]; rewrite match_at_rejected by exact H1.
  - reflexivity.
  - apply IH, H2.
Qed.

(** No pattern of the source can start inside the diagnostic. *)
Lemma no_cue_markup_diagnostic (u : Unicode) (x : pystr) :
  no_cue_markup u x = true -> no_cue_markup u (too_short_prefix ++ x) = true.
Proof.
  unfold no_cue_markup. intros K.
  repeat (apply andb_true_iff in K; destruct K as [K ?]).
  repeat match goal with
         | H : negb _ = true |- _ =>
             apply negb_true_iff in H; apply (has_match_any_prev _ _ SP) in H
         end.
  change too_short_prefix
    with (str "Error: Extracted text too short. VTT content:" ++ [SP]).
  rewrite !has_match_skip by (vm_compute; reflexivity).
  rewrite K, H, H0, H1. reflexivity.
Qed.

(** C8, as the code has it. On non-empty flat text -- one line, single
    spaces between words, none at the ends -- that holds no cue markup (no
    timestamp range, inline tag, header token or cue-number line),
    normalising twice gives what normalising once gives. *)
Theorem normalize_idempotent_on_flat :
  forall (u : Unicode) (x : pystr),
    x <> [] ->
    flat u x = true ->
    no_cue_markup u x = true ->
    normalize u (normalize u x) = normalize u x.
Proof.
  intros u x N F K.
  assert (E : normalize u x
              = if List.length x <? 10 then too_short_prefix ++ x else x).
  { unfold normalize. rewrite (vtt_clean_flat u x F K).
    destruct (List.length x <? 10) eqn:L; [|reflexivity].
    apply Nat.ltb_lt in L. rewrite firstn_all2 by lia. reflexivity. }
  rewrite E. destruct (List.length x <? 10) eqn:L.
  - unfold normalize.
    rewrite (vtt_clean_flat u _ (flat_diagnostic u N F)
               (no_cue_markup_diagnostic u x K)).
    replace (List.length (too_short_prefix ++ x) <? 10) with false;
      [reflexivity|].
    symmetry. apply Nat.ltb_ge. rewrite length_app.
    change (List.length too_short_prefix) with 46. lia.
  - unfold normalize. rewrite (vtt_clean_flat u x F K), L. reflexivity.
Qed.

Lemma normalize_idempotent_on_flat_witness :
  normalize Reference.ascii_tables (normalize Reference.ascii_tables (str "hi there"))
  = normalize Reference.ascii_tables (str "hi there").
Proof.
  apply (@normalize_idempotent_on_flat Reference.ascii_tables (str "hi there"));
    [discriminate | reflexivity | reflexivity].
Defined.

(** C8 as the spec words it fails on the empty text, which is flat and
    holds no markup: its diagnostic ends in a space, which a second
    normalisation strips. *)
Lemma normalize_not_idempotent_on_empty :
  flat Reference.ascii_tables [] = true
  /\ no_cue_markup Reference.ascii_tables [] = true
  /\ normalize Reference.ascii_tables []
     = str "Error: Extracted text too short. VTT content: "
  /\ normalize Reference.ascii_tables (normalize Reference.ascii_tables [])
     = str "Error: Extracted text too short. VTT content:"
  /\ normalize Reference.ascii_tables (normalize Reference.ascii_tables [])
     <> normalize Reference.ascii_tables [].
Proof.
  repeat split; try reflexivity. vm_compute. discriminate.
Qed.

(** Flatness is needed as well: text with a double space holds no markup,
    and its diagnostic keeps the double space that a second pass
    collapses. *)
Lemma normalize_not_idempotent_on_double_space :
  let x := str "a  b" in
  flat Reference.ascii_tables x = false
  /\ no_cue_markup Reference.ascii_tables x = true
  /\ normalize Reference.ascii_tables x
     = str "Error: Extracted text too short. VTT content: a  b"
  /\ normalize Reference.ascii_tables (normalize Reference.ascii_tables x)
     = str "Error: Extracted text too short. VTT content: a b".
Proof. cbv zeta. repeat split; vm_compute; reflexivity. Qed.

(** *** Line 120 comes too late *)

Lemma newlines_step_output (s : pystr) :
  forall prev skip, ~ In NL (sub_from re_newlines [SP] prev skip s).
Proof.
  induction s as [|c s IH]; intros prev skip.
  - destruct skip; simpl; tauto.
  - destruct skip as [|k]; [|apply IH].
    cbn [sub_from]. unfold match_at.
    cbn [re_newlines bol atoms andb match_atoms match_many].
    destruct (char_eqb NL c) eqn:E.
    + destruct (match_many (char_eqb NL) (fun _ => Some 0) s);
        cbn [option_map app]; intros [X|X];
        solve [discriminate X | exact (IH _ _ X)].
    + intros [X|X]; [|exact (IH _ _ X)].
      subst c. unfold char_eqb in E. rewrite N.eqb_refl in E. discriminate.
Qed.

Lemma cue_number_match_has_newline (u : Unicode) (s : pystr) (n : nat) :
  match_atoms (atoms (re_cue_number u)) s = Some n -> In NL s.
Proof.
  cbn [re_cue_number atoms match_atoms]. revert n.
  induction s as [|c s IH]; intros n; cbn [match_many]; [discriminate|].
  destruct (is_decimal u c); [|discriminate].
  destruct (match_many _ _ s) as [m|] eqn:E.
  - intros _. right. exact (IH m eq_refl).
  - destruct s as [|c' s]; [discriminate|].
    destruct (char_eqb NL c') eqn:X; [|discriminate].
    apply N.eqb_eq in X. subst c'. intros _. right. left. reflexivity.
Qed.

Lemma cue_number_needs_newline (u : Unicode) (s : pystr) :
  forall prev, ~ In NL s -> has_match (re_cue_number u) prev s = false.
Proof.
  induction s as [|c s IH]; intros prev N.
  - cbn [has_match]. unfold match_at.
    destruct (bol (re_cue_number u) && negb (at_bol prev)); reflexivity.
  - cbn [has_match]. unfold match_at.
    destruct (bol (re_cue_number u) && negb (at_bol prev)).
    + apply IH. intros X. apply N. right. exact X.
    + destruct (match_atoms (atoms (re_cue_number u)) (c :: s)) eqn:E.
      * elim N. exact (cue_number_match_has_newline u _ E).
      * apply IH. intros X. apply N. right. exact X.
Qed.

(** For every text, the removal of cue numbers at line 120 changes
    nothing after line 119. *)
Lemma cue_number_step_is_inert (u : Unicode) (text : pystr) :
  re_sub (re_cue_number u) [] (re_sub re_newlines [SP] text)
  = re_sub re_newlines [SP] text.
Proof.
  apply re_sub_no_match, cue_number_needs_newline.
  apply newlines_step_output.
Qed.

(** ** Further properties of the acquisition engine *)

Lemma fallback_run (w : World) (video_id result : pystr) (tr : trace) :
  fallback_to_api w video_id result tr
  = match secondary w video_id with
    | Ok text =>
        (Ok text,
         tr ++ [ StWrite (str "yt-dlp failed, trying youtube-transcript-api...");
                 ApiListTranscripts video_id;
                 StWrite (str "Success with youtube-transcript-api!") ])
    | Raise e =>
        (Ok (both_failed_prefix ++ result),
         tr ++ [ StWrite (str "yt-dlp failed, trying youtube-transcript-api...");
                 ApiListTranscripts video_id;
                 StWrite (str "youtube-transcript-api also failed: " ++ exn_str e) ])
    end.
Proof.
  unfold fallback_to_api, try_except, bind, st_write, emit.
  rewrite api_run.
  destruct (secondary w video_id); cbn [ret]; rewrite <- !app_assoc; reflexivity.
Qed.

(** Every run of [extract_transcript_details], spelled out. *)
Lemma details_full (rt : Runtime) (w : World) (video_id : pystr) (tr : trace) :
  extract_transcript_details rt w video_id tr
  = if accepts_primary (ytdlp_failure w) then
      (Ok (ytdlp_failure w),
       tr ++ [ StWrite (str "Using yt-dlp to extract transcript...");
               MakeTempDir;
               StWrite ([9989%N] ++ str " Successfully extracted transcript with yt-dlp!") ])
    else
      match secondary w video_id with
      | Ok text =>
          (Ok text,
           tr ++ [ StWrite (str "Using yt-dlp to extract transcript...");
                   MakeTempDir;
                   StWrite (str "yt-dlp failed, trying youtube-transcript-api...");
                   ApiListTranscripts video_id;
                   StWrite (str "Success with youtube-transcript-api!") ])
      | Raise e =>
          (Ok (both_failed_prefix ++ ytdlp_failure w),
           tr ++ [ StWrite (str "Using yt-dlp to extract transcript...");
                   MakeTempDir;
                   StWrite (str "yt-dlp failed, trying youtube-transcript-api...");
                   ApiListTranscripts video_id;
                   StWrite (str "youtube-transcript-api also failed: " ++ exn_str e) ])
      end.
Proof.
  rewrite details_run. unfold after_primary.
  destruct (accepts_primary (ytdlp_failure w)).
  - unfold bind, st_write, emit, ret. rewrite <- !app_assoc. reflexivity.
  - rewrite fallback_run.
    destruct (secondary w video_id); rewrite <- !app_assoc; reflexivity.
Qed.

(** X1. [extract_transcript_details] returns normally in every world --
    all three handlers of lines 163-168 are dead -- and none of the events
    it adds is a request to yt-dlp. *)
Theorem acquisition_never_raises_nor_asks_ytdlp :
  forall (rt : Runtime) (w : World) (video_id : pystr) (tr : trace),
    exists (text : pystr) (added : trace),
      extract_transcript_details rt w video_id tr = (Ok text, tr ++ added)
      /\ Forall (fun e => asks_ytdlp e = false) added.
Proof.
  intros rt w video_id tr. rewrite details_full.
  destruct (accepts_primary (ytdlp_failure w));
    [|destruct (secondary w video_id)];
    do 2 eexists; (split; [reflexivity|]);
    repeat constructor.
Qed.

(** X2. A result that carries the marker "Error:" is never a failure of
    the acquisition: it is text that the transcript service returned. *)
Theorem error_marked_text_comes_from_service :
  forall (rt : Runtime) (w : World) (video_id text : pystr) (tr : trace),
    result_of (extract_transcript_details rt w video_id) tr = Ok text ->
    startswith (str "Error:") text = true ->
    secondary w video_id = Ok text.
Proof.
  intros rt w video_id text tr R E. unfold result_of in R.
  rewrite details_full in R.
  destruct (accepts_primary (ytdlp_failure w)).
  - cbn [fst] in R. injection R as <-. discriminate E.
  - destruct (secondary w video_id) as [t|e]; cbn [fst] in R; injection R as <-.
    + reflexivity.
    + discriminate E.
Qed.

Lemma error_marked_text_comes_from_service_witness :
  let w := Reference.world
             (Ok {| find_transcript := fun _ =>
                      Ok {| fetch := Ok [ [(str "text", str "Error: 404")] ] |} |}) in
  secondary w (str "abc123") = Ok (str "Error: 404").
Proof.
  cbv zeta.
  apply (@error_marked_text_comes_from_service Reference.runtime _
           (str "abc123") (str "Error: 404") []);
    [unfold result_of; rewrite details_full; reflexivity | reflexivity].
Defined.

Lemma cue_texts_all (cues : list (dict pystr)) (texts : list pystr) :
  Forall2 (fun cue text => dict_get cue (str "text") = Some text) cues texts ->
  cue_texts cues = Ok texts.
Proof.
  induction 1 as [|cue text cues texts H _ IH]; [reflexivity|].
  cbn [cue_texts]. unfold cue_text. rewrite H, IH. reflexivity.
Qed.

Lemma cue_texts_missing (cues : list (dict pystr)) :
  Exists (fun cue => dict_get cue (str "text") = None) cues ->
  exists e, cue_texts cues = Raise e.
Proof.
  induction 1 as [cue cues H | cue cues _ IH]; cbn [cue_texts]; unfold cue_text.
  - rewrite H. eauto.
  - destruct (dict_get cue (str "text")); [|eauto].
    destruct IH as [e ->]. eauto.
Qed.

Lemma secondary_of_cues (w : World) (video_id : pystr) (tl : TranscriptList)
    (t : Transcript) (cues : list (dict pystr)) :
  list_transcripts w video_id = Ok tl ->
  find_transcript tl [str "en"] = Ok t ->
  fetch t = Ok cues ->
  secondary w video_id
  = match cue_texts cues with
    | Ok texts => Ok (join (str " ") texts)
    | Raise e => Raise e
    end.
Proof.
  intros L F C. unfold secondary, api_transcript_text. run_m.
  rewrite L. simpl. rewrite F. simpl. rewrite C. simpl.
  destruct (cue_texts cues); reflexivity.
Qed.

(** X3. When the primary result is turned down and the service has an
    English transcript whose cues all have a "text" entry, the result is
    those texts, in order, with one space between them. *)
Theorem service_cues_are_joined :
  forall (rt : Runtime) (w : World) (video_id : pystr) (tl : TranscriptList)
         (t : Transcript) (cues : list (dict pystr)) (texts : list pystr)
         (tr : trace),
    accepts_primary (ytdlp_failure w) = false ->
    list_transcripts w video_id = Ok tl ->
    find_transcript tl [str "en"] = Ok t ->
    fetch t = Ok cues ->
    Forall2 (fun cue text => dict_get cue (str "text") = Some text) cues texts ->
    result_of (extract_transcript_details rt w video_id) tr
    = Ok (join (str " ") texts).
Proof.
  intros rt w video_id tl t cues texts tr A L F C T.
  unfold result_of. rewrite details_full, A.
  rewrite (secondary_of_cues w video_id L F C), (cue_texts_all T).
  reflexivity.
Qed.

Lemma service_cues_are_joined_witness :
  result_of (extract_transcript_details Reference.runtime Reference.two_api_cues
               (str "abc123")) []
  = Ok (str "hello world goodbye friends").
Proof.
  apply (@service_cues_are_joined Reference.runtime Reference.two_api_cues
           (str "abc123") _ _ _ [str "hello world"; str "goodbye friends"] []
           eq_refl eq_refl eq_refl eq_refl).
  repeat constructor.
Defined.

(** X4. A single cue without a "text" entry spoils the whole transcript:
    the [KeyError] is taken by line 159 and the composite failure comes
    back, whatever the other cues hold. *)
Theorem cue_without_text_yields_composite :
  forall (rt : Runtime) (w : World) (video_id : pystr) (tl : TranscriptList)
         (t : Transcript) (cues : list (dict pystr)) (tr : trace),
    accepts_primary (ytdlp_failure w) = false ->
    list_transcripts w video_id = Ok tl ->
    find_transcript tl [str "en"] = Ok t ->
    fetch t = Ok cues ->
    Exists (fun cue => dict_get cue (str "text") = None) cues ->
    result_of (extract_transcript_details rt w video_id) tr
    = Ok (str "Both methods failed. yt-dlp result: " ++ ytdlp_failure w).
Proof.
  intros rt w video_id tl t cues tr A L F C X.
  unfold result_of. rewrite details_full, A.
  rewrite (secondary_of_cues w video_id L F C).
  destruct (cue_texts_missing X) as [e ->]. reflexivity.
Qed.

Lemma cue_without_text_yields_composite_witness :
  let w := Reference.world
             (Ok {| find_transcript := fun _ =>
                      Ok {| fetch := Ok [ [(str "text", str "hello world")];
                                          [(str "start", str "1.0")] ] |} |}) in
  result_of (extract_transcript_details Reference.runtime w (str "abc123")) []
  = Ok (str "Both methods failed. yt-dlp result: " ++ ytdlp_failure w).
Proof.
  cbv zeta.
  eapply cue_without_text_yields_composite;
    [reflexivity | reflexivity | reflexivity | reflexivity |].
  apply Exists_cons_tl, Exists_cons_hd. reflexivity.
Defined.

(** ** Further properties of the identifier extractor and of the button *)

(** [extract_video_id] neither raises nor emits; its value is that of a
    run from the empty trace. *)
Lemma extract_video_id_run (rt : Runtime) (url : pystr) (tr : trace) :
  exists video_id : option pystr,
    result_of (extract_video_id rt url) [] = Ok video_id
    /\ extract_video_id rt url tr = (Ok video_id, tr).
Proof.
  unfold extract_video_id. run_m.
  destruct (urlparse rt url) as [p|e]; simpl; [|eauto].
  destruct (contains (str "youtu.be") (netloc p)); simpl; [eauto|].
  destruct (contains (str "youtube.com") (netloc p)
            || contains (str "www.youtube.com") (netloc p)); simpl; [|eauto].
  destruct (parse_qs rt (query p)) as [qs|e]; simpl; eauto.
Qed.

(** X5. An identifier comes back in exactly two cases: the network
    location holds "youtu.be" and the path has something after its first
    character, which is the identifier, whatever the query says; or it
    holds "youtube.com" but not "youtu.be" and the first value of the
    query parameter [v] is the identifier. *)
Theorem identifier_exactly_when :
  forall (rt : Runtime) (url video_id : pystr) (tr : trace),
    result_of (extract_video_id rt url) tr = Ok (Some video_id)
    <->
    exists parsed_url : ParseResult,
      urlparse rt url = Ok parsed_url
      /\ ((contains (str "youtu.be") (netloc parsed_url) = true
           /\ skipn 1 (path parsed_url) = video_id
           /\ video_id <> [])
          \/
          (contains (str "youtu.be") (netloc parsed_url) = false
           /\ contains (str "youtube.com") (netloc parsed_url) = true
           /\ exists qs more,
               parse_qs rt (query parsed_url) = Ok qs
               /\ dict_get qs (str "v") = Some (video_id :: more))).
Proof.
  intros rt url video_id tr.
  unfold extract_video_id, result_of, try_except, bind, lift, ret.
  destruct (urlparse rt url) as [p|e].
  2: { split; [discriminate | intros [p [U _]]; discriminate]. }
  assert (W : contains (str "youtube.com") (netloc p) = false ->
              contains (str "www.youtube.com") (netloc p) = false).
  { intros L. destruct (contains (str "www.youtube.com") (netloc p)) eqn:E; trivial.
    change (str "www.youtube.com") with (str "www." ++ str "youtube.com") in E.
    apply contains_app in E. congruence. }
  destruct (contains (str "youtu.be") (netloc p)) eqn:S.
  - split.
    + intros H. exists p. split; [reflexivity|]. left.
      cbn [fst] in H. revert H.
      destruct (skipn 1 (path p)) as [|c rest]; intros H;
        [discriminate H|].
      injection H as <-.
      split; [exact S | split; [reflexivity | discriminate]].
    + intros [p' [U [[_ [K N]] | [X _]]]]; injection U as <-; [|congruence].
      rewrite K. destruct video_id; [congruence | reflexivity].
  - destruct (contains (str "youtube.com") (netloc p)) eqn:L; cbn [orb].
    + destruct (parse_qs rt (query p)) as [qs|e] eqn:Q; cbn [fst].
      * split.
        -- intros H. exists p. split; [reflexivity|]. right.
           split; [exact S|]. split; [exact L|]. exists qs. revert H.
           destruct (dict_get qs (str "v")) as [[|first more]|]; intros H;
             try discriminate H.
           injection H as <-. exists more. split; [exact Q | reflexivity].
        -- intros [p' [U [[X _] | [_ [_ [qs' [more [Q' V]]]]]]]];
             injection U as <-; [congruence|].
           rewrite Q in Q'. injection Q' as <-. rewrite V. reflexivity.
      * split; [discriminate|].
        intros [p' [U [[X _] | [_ [_ [qs' [more [Q' V]]]]]]]];
          injection U as <-; congruence.
    + rewrite (W eq_refl). cbn [fst]. split; [discriminate|].
      intros [p' [U [[X _] | [_ [X _]]]]]; injection U as <-; congruence.
Qed.

Lemma notes_without_identifier (rt : Runtime) (w : World) (youtube_link : pystr)
    (tr : trace) :
  result_of (extract_video_id rt youtube_link) [] = Ok None
  \/ result_of (extract_video_id rt youtube_link) [] = Ok (Some []) ->
  get_detailed_notes rt w youtube_link tr
  = (Ok tt, tr ++ [StError ([10060%N] ++ str " Invalid YouTube link format.")]).
Proof.
  intros H.
  destruct (extract_video_id_run rt youtube_link tr) as [v [R E]].
  unfold get_detailed_notes, bind. rewrite E.
  destruct H as [H|H]; rewrite R in H; injection H as ->; reflexivity.
Qed.

(** X6. With a link that gives no identifier, or an empty one, the button
    only reports the link as invalid: one [st.error], no acquisition and
    no request. *)
Theorem invalid_link_is_only_reported :
  forall (rt : Runtime) (w : World) (youtube_link : pystr) (tr : trace),
    result_of (extract_video_id rt youtube_link) [] = Ok None
    \/ result_of (extract_video_id rt youtube_link) [] = Ok (Some []) ->
    get_detailed_notes rt w youtube_link tr
    = (Ok tt, tr ++ [StError ([10060%N] ++ str " Invalid YouTube link format.")]).
Proof.
  intros rt w link tr H.
  destruct (extract_video_id_run rt link tr) as [v [R E]].
  unfold get_detailed_notes, bind. rewrite E.
  destruct H as [H|H]; rewrite R in H; injection H as ->; reflexivity.
Qed.

Lemma invalid_link_is_only_reported_witness :
  get_detailed_notes Reference.runtime Reference.two_api_cues [] []
  = (Ok tt, [StError ([10060%N] ++ str " Invalid YouTube link format.")]).
Proof.
  apply (@invalid_link_is_only_reported Reference.runtime Reference.two_api_cues
           [] []).
  left. reflexivity.
Defined.

(** A run of the button handler once the link has given an identifier
    and the acquisition has returned. *)
Lemma notes_after_acquisition (rt : Runtime) (w : World) (youtube_link : pystr)
    (c : char) (video_id text : pystr) (tr tr1 : trace) :
  result_of (extract_video_id rt youtube_link) [] = Ok (Some (c :: video_id)) ->
  extract_transcript_details rt w (c :: video_id) tr = (Ok text, tr1) ->
  get_detailed_notes rt w youtube_link tr
  = if startswith (str "Error:") text then (Ok tt, tr1 ++ [StError text])
    else
      match generate_content w (prompt ++ text) with
      | Raise e => (Raise e, tr1 ++ [GeminiGenerate (prompt ++ text)])
      | Ok summary =>
          (Ok tt,
           tr1 ++ [ GeminiGenerate (prompt ++ text);
                    StMarkdown (str "## " ++ [128221%N] ++ str " Detailed Notes:");
                    StWrite summary ])
      end.
Proof.
  intros V D.
  destruct (extract_video_id_run rt youtube_link tr) as [v [R E]].
  rewrite R in V. injection V as ->.
  unfold get_detailed_notes, bind. rewrite E, D.
  destruct (startswith (str "Error:") text); [reflexivity|].
  unfold generate_gemini_content, st_markdown, st_write, bind, emit, lift.
  destruct (generate_content w (prompt ++ text));
    cbv beta iota; rewrite <- ?app_assoc; reflexivity.
Qed.

(** X7. Whenever the transcript service raises, the button does not
    report an error: the failure string of the acquisition is sent, after
    the prompt, to the summarisation service. *)
Theorem acquisition_failure_is_summarised :
  forall (rt : Runtime) (w : World) (youtube_link : pystr) (c : char)
         (video_id : pystr) (e : exn) (tr : trace),
    result_of (extract_video_id rt youtube_link) [] = Ok (Some (c :: video_id)) ->
    secondary w (c :: video_id) = Raise e ->
    exists (failure : pystr) (added : trace),
      result_of (extract_transcript_details rt w (c :: video_id)) tr = Ok failure
      /\ (failure = ytdlp_failure w
          \/ failure = both_failed_prefix ++ ytdlp_failure w)
      /\ trace_of (get_detailed_notes rt w youtube_link) tr = tr ++ added
      /\ In (GeminiGenerate (prompt ++ failure)) added
      /\ forall msg, ~ In (StError msg) added.
Proof.
  intros rt w link c video_id e tr V S.
  pose proof (details_full rt w (c :: video_id) tr) as D. rewrite S in D.
  assert (G : forall failure added,
             extract_transcript_details rt w (c :: video_id) tr
               = (Ok failure, tr ++ added) ->
             startswith (str "Error:") failure = false ->
             (forall msg, ~ In (StError msg) added) ->
             exists added',
               trace_of (get_detailed_notes rt w link) tr = tr ++ added'
               /\ In (GeminiGenerate (prompt ++ failure)) added'
               /\ forall msg, ~ In (StError msg) added').
  { intros failure added D' N F. unfold trace_of.
    rewrite (notes_after_acquisition rt w link tr V D'), N.
    destruct (generate_content w (prompt ++ failure)); cbn [snd];
      rewrite <- app_assoc; eexists; (split; [reflexivity|]);
      (split; [apply in_or_app; right; left; reflexivity|]);
      intros msg H; apply in_app_or in H; destruct H as [H|H];
      try exact (F msg H); simpl in H;
      repeat (destruct H as [H|H]; [discriminate H|]); exact H. }
  destruct (accepts_primary (ytdlp_failure w)).
  - destruct (G _ _ D eq_refl) as [added' [T [I F]]].
    { intros msg H. simpl in H.
      repeat (destruct H as [H|H]; [discriminate H|]). exact H. }
    exists (ytdlp_failure w), added'. unfold result_of. rewrite D. auto.
  - destruct (G _ _ D eq_refl) as [added' [T [I F]]].
    { intros msg H. simpl in H.
      repeat (destruct H as [H|H]; [discriminate H|]). exact H. }
    exists (both_failed_prefix ++ ytdlp_failure w), added'.
    unfold result_of. rewrite D. auto.
Qed.

Lemma acquisition_failure_is_summarised_witness :
  exists failure added,
    result_of (extract_transcript_details Reference.runtime Reference.no_english
                 (str "abc123")) [] = Ok failure
    /\ (failure = ytdlp_failure Reference.no_english
        \/ failure = both_failed_prefix ++ ytdlp_failure Reference.no_english)
    /\ trace_of (get_detailed_notes Reference.runtime Reference.no_english
                   (str "https://youtu.be/abc123")) [] = [] ++ added
    /\ In (GeminiGenerate (prompt ++ failure)) added
    /\ forall msg, ~ In (StError msg) added.
Proof.
  apply (@acquisition_failure_is_summarised Reference.runtime Reference.no_english
           (str "https://youtu.be/abc123") 97%N (str "bc123")
           (Reference.failing NoTranscriptFound "No transcripts were found") []);
    reflexivity.
Defined.

Lemma details_shows_no_heading (rt : Runtime) (w : World) (video_id : pystr)
    (tr : trace) :
  exists (text : pystr) (added : trace),
    extract_transcript_details rt w video_id tr = (Ok text, tr ++ added)
    /\ forall msg, ~ In (StMarkdown msg) added.
Proof.
  rewrite details_full.
  destruct (accepts_primary (ytdlp_failure w));
    [|destruct (secondary w video_id)];
    do 2 eexists; (split; [reflexivity|]);
    intros msg H; simpl in H;
    repeat (destruct H as [H|H]; [discriminate H|]); exact H.
Qed.

(** X8. A failure of the summarisation service is not caught: the button
    handler ends with that exception, and the heading and summary are not
    shown. *)
Theorem summarisation_failure_propagates :
  forall (rt : Runtime) (w : World) (youtube_link : pystr) (c : char)
         (video_id text : pystr) (e : exn) (tr : trace),
    result_of (extract_video_id rt youtube_link) [] = Ok (Some (c :: video_id)) ->
    result_of (extract_transcript_details rt w (c :: video_id)) tr = Ok text ->
    startswith (str "Error:") text = false ->
    generate_content w (prompt ++ text) = Raise e ->
    result_of (get_detailed_notes rt w youtube_link) tr = Raise e
    /\ forall msg, ~ In (StMarkdown msg)
                     (skipn (List.length tr)
                        (trace_of (get_detailed_notes rt w youtube_link) tr)).
Proof.
  intros rt w link c video_id text e tr V A N G.
  destruct (details_shows_no_heading rt w (c :: video_id) tr)
    as [text' [added [D F]]].
  unfold result_of in A. rewrite D in A. cbn [fst] in A. injection A as ->.
  unfold result_of, trace_of.
  rewrite (notes_after_acquisition rt w link tr V D), N, G. cbn [fst snd].
  split; [reflexivity|].
  rewrite <- app_assoc, skipn_app, skipn_all, Nat.sub_diag. cbn [skipn app].
  intros msg H. apply in_app_or in H. destruct H as [H|[H|[]]]; [|discriminate].
  exact (F msg H).
Qed.

Lemma summarisation_failure_propagates_witness :
  let w := {| temporary_directory := Ok (str "/tmp/tmpk3x9");
              extract_info := fun _ => Raise (Reference.failing DownloadError "");
              download := fun _ => Ok tt;
              listdir := fun _ => Ok [];
              read_text := fun _ => Ok [];
              list_transcripts := list_transcripts Reference.two_api_cues;
              generate_content := fun _ =>
                Raise (Reference.failing OtherException "429 quota exceeded") |} in
  result_of (get_detailed_notes Reference.runtime w (str "https://youtu.be/abc123")) []
  = Raise (Reference.failing OtherException "429 quota exceeded").
Proof.
  cbv zeta.
  eapply summarisation_failure_propagates;
    [ reflexivity
    | unfold result_of; rewrite details_full; reflexivity
    | reflexivity
    | reflexivity ].
Defined.

(** ** Further properties of the caption normaliser *)

Lemma match_many_leading (p : char -> bool) (k : pystr -> option nat) (s : pystr) :
  (forall t, k t = Some 0) ->
  match_many p k s
  = match leading p s with
    | O => None
    | S n => Some (S n)
    end.
Proof.
  intros K. induction s as [|c s IH]; [reflexivity|].
  cbn [match_many leading]. destruct (p c); [|reflexivity].
  rewrite IH, K. destruct (leading p s); reflexivity.
Qed.

Lemma match_spaces (u : Unicode) (prev : option char) (s : pystr) :
  match_at (re_spaces u) prev s
  = match leading (is_space u) s with
    | O => None
    | S n => Some (S n)
    end.
Proof.
  unfold match_at. cbn [re_spaces bol atoms andb match_atoms].
  apply match_many_leading. reflexivity.
Qed.

(** After line 123 every whitespace character is a single space between
    two other characters, or the first or last character. *)
Lemma spaces_step_loose (u : Unicode) (s : pystr) :
  forall prev,
    loose u (sub_from (re_spaces u) [SP] prev 0 s) = true
    /\ (loose u (sub_from (re_spaces u) [SP] prev (leading (is_space u) s) s) = true
        /\ match sub_from (re_spaces u) [SP] prev (leading (is_space u) s) s with
           | [] => true
           | c :: _ => negb (is_space u c)
           end = true).
Proof.
  induction s as [|c s IH]; intros prev.
  - cbn [leading sub_from]. rewrite match_spaces. cbn [leading]. auto.
  - destruct (IH (Some c)) as [IH1 [IH2 IH3]].
    cbn [leading]. destruct (is_space u c) eqn:W.
    + split; [|cbn [sub_from]; auto].
      cbn [sub_from]. rewrite match_spaces. cbn [leading]. rewrite W.
      cbn [app]. cbn [loose].
      rewrite IH2, IH3. reflexivity.
    + assert (E : sub_from (re_spaces u) [SP] prev 0 (c :: s)
                  = c :: sub_from (re_spaces u) [SP] (Some c) 0 s).
      { cbn [sub_from]. rewrite match_spaces. cbn [leading]. rewrite W.
        reflexivity. }
      rewrite E. cbn [loose]. rewrite W, IH1. auto.
Qed.

Lemma loose_tail (u : Unicode) (c : char) (s : pystr) :
  loose u (c :: s) = true -> loose u s = true.
Proof. cbn [loose]. intros H. apply andb_true_iff in H. tauto. Qed.

Lemma lstrip_loose (u : Unicode) (s : pystr) :
  loose u s = true ->
  loose u (lstrip u s) = true
  /\ match lstrip u s with
     | [] => true
     | c :: _ => negb (is_space u c)
     end = true.
Proof.
  induction s as [|c s IH]; intros L; [auto|].
  cbn [lstrip]. destruct (is_space u c) eqn:W.
  - apply IH, (loose_tail _ _ _ L).
  - rewrite W. auto.
Qed.

Lemma loose_prefix (u : Unicode) (a b : pystr) :
  loose u (a ++ b) = true -> loose u a = true.
Proof.
  induction a as [|c a IH]; intros L; [reflexivity|].
  cbn [app] in L. pose proof (loose_tail _ _ _ L) as T.
  cbn [loose] in *. rewrite (IH T), andb_true_r.
  apply andb_true_iff in L. destruct L as [L _].
  destruct (is_space u c); [|reflexivity].
  apply andb_true_iff in L. destruct L as [E L]. rewrite E.
  destruct a; [reflexivity | exact L].
Qed.

Lemma loose_space_then (u : Unicode) (a b : pystr) (d c : char) :
  loose u (a ++ d :: c :: b) = true -> is_space u d = true ->
  is_space u c = false.
Proof.
  induction a as [|x a IH]; intros L W.
  - cbn [app loose] in L. rewrite W in L.
    apply andb_true_iff in L. destruct L as [L _].
    apply andb_true_iff in L. destruct L as [_ L].
    apply negb_true_iff, L.
  - apply IH; [exact (loose_tail _ _ _ L) | exact W].
Qed.

Lemma loose_single_spaced (u : Unicode) (t : pystr) (d : char) :
  loose u (t ++ [d]) = true -> is_space u d = false ->
  single_spaced u (t ++ [d]) = true.
Proof.
  intros L D. induction t as [|c t IH].
  - cbn [app single_spaced]. rewrite D. reflexivity.
  - cbn [app] in *. pose proof (loose_tail _ _ _ L) as T.
    rewrite single_spaced_cons, (IH T), andb_true_r.
    cbn [loose] in L. apply andb_true_iff in L. destruct L as [L _].
    destruct (is_space u c); [|reflexivity].
    destruct (t ++ [d]) eqn:E; [destruct t; discriminate E | exact L].
Qed.

Lemma rstrip_loose (u : Unicode) (t : pystr) :
  loose u t = true ->
  match t with [] => true | c :: _ => negb (is_space u c) end = true ->
  flat u (rstrip u t) = true.
Proof.
  intros L H. unfold rstrip.
  destruct t as [|c t0] using rev_ind; [reflexivity|]. clear IHt0.
  rewrite rev_app_distr. cbn [rev app lstrip].
  destruct (is_space u c) eqn:W.
  - destruct t0 as [|d t1] using rev_ind.
    + cbn [app] in H. rewrite W in H. discriminate.
    + clear IHt1. rewrite <- app_assoc in L. cbn [app] in L.
      pose proof (loose_space_then u t1 [] d c) as X.
      assert (D : is_space u d = false).
      { destruct (is_space u d) eqn:D; [|reflexivity].
        rewrite (X L eq_refl) in W. discriminate. }
      rewrite rev_app_distr. cbn [rev app lstrip]. rewrite D.
      change (d :: rev t1) with (rev [d] ++ rev t1).
      rewrite <- rev_app_distr, rev_involutive.
      assert (L' : loose u (t1 ++ [d]) = true).
      { apply (loose_prefix u (t1 ++ [d]) [c]).
        rewrite <- app_assoc. exact L. }
      unfold flat. rewrite (loose_single_spaced u t1 d L' D), andb_true_r.
      destruct t1; [cbn [app]; rewrite D; reflexivity | exact H].
  - change (c :: rev t0) with (rev [c] ++ rev t0).
    rewrite <- rev_app_distr, rev_involutive.
    unfold flat. rewrite (loose_single_spaced u t0 c L W), andb_true_r.
    exact H.
Qed.

Lemma cleaned_text_is_flat_aux (u : Unicode) (content : pystr) :
  flat u (vtt_clean u content) = true.
Proof.
  unfold vtt_clean, strip, re_sub.
  match goal with
  | |- context [sub_from (re_spaces u) [SP] None 0 ?t] =>
      destruct (spaces_step_loose u t None) as [L _];
      destruct (lstrip_loose u _ L) as [L1 L2]
  end.
  apply rstrip_loose; assumption.
Qed.

(** X9. Whatever the document, the cleaned text of lines 116-124 is
    flat: it has no line feed or other whitespace than single spaces
    between words, and no space at either end. *)
Theorem cleaned_text_is_flat :
  forall (u : Unicode) (content : pystr),
    flat u (vtt_clean u content) = true.
Proof.
  intros u content. unfold vtt_clean, strip, re_sub.
  match goal with
  | |- context [sub_from (re_spaces u) [SP] None 0 ?t] =>
      destruct (spaces_step_loose u t None) as [L _];
      destruct (lstrip_loose u _ L) as [L1 L2]
  end.
  apply rstrip_loose; assumption.
Qed.

Lemma match_many_positive (p : char -> bool) (k : pystr -> option nat) (s : pystr) :
  match_many p k s <> Some 0.
Proof.
  destruct s as [|c s]; cbn [match_many]; [discriminate|].
  destruct (p c); [|discriminate].
  destruct (match_many p k s); [discriminate|].
  destruct (k s); discriminate.
Qed.

(** A pattern with at least one item matches at least one character. *)
Lemma match_at_consumes (r : regex) (prev : option char) (s : pystr) :
  atoms r <> [] ->
  match_at r prev s <> Some 0 /\ match_at r prev [] = None.
Proof.
  intros N. unfold match_at.
  destruct (bol r && negb (at_bol prev)); [split; [discriminate | reflexivity]|].
  destruct (atoms r) as [|[p|p] l]; [congruence| |]; cbn [match_atoms].
  - split; [|reflexivity].
    destruct s as [|c s]; [discriminate|].
    destruct (p c); [|discriminate].
    destruct (match_atoms l s); discriminate.
  - split; [apply match_many_positive | reflexivity].
Qed.

Lemma sub_from_length (r : regex) (repl s : pystr) :
  atoms r <> [] -> List.length repl <= 1 ->
  forall prev skip, List.length (sub_from r repl prev skip s) <= List.length s.
Proof.
  intros N R. induction s as [|c s IH]; intros prev skip.
  - cbn [sub_from]. rewrite (proj2 (match_at_consumes r prev [] N)).
    destruct skip; apply Nat.le_refl.
  - cbn [sub_from]. destruct skip as [|k].
    + pose proof (proj1 (match_at_consumes r prev (c :: s) N)) as P.
      destruct (match_at r prev (c :: s)) as [[|n]|]; [congruence| |].
      * rewrite length_app. specialize (IH (Some c) n). cbn [List.length]. lia.
      * cbn [List.length]. specialize (IH (Some c) 0). lia.
    + specialize (IH (Some c) k). cbn [List.length]. lia.
Qed.

Lemma re_sub_length (r : regex) (repl s : pystr) :
  atoms r <> [] -> List.length repl <= 1 ->
  List.length (re_sub r repl s) <= List.length s.
Proof. intros N R. apply sub_from_length; assumption. Qed.

Lemma lstrip_length (u : Unicode) (s : pystr) :
  List.length (lstrip u s) <= List.length s.
Proof.
  induction s as [|c s IH]; [apply Nat.le_refl|].
  cbn [lstrip]. destruct (is_space u c); cbn [List.length]; lia.
Qed.

Lemma strip_length (u : Unicode) (s : pystr) :
  List.length (strip u s) <= List.length s.
Proof.
  unfold strip, rstrip. rewrite length_rev.
  etransitivity; [apply lstrip_length|].
  rewrite length_rev. apply lstrip_length.
Qed.

(** X10. Cleaning never adds characters: the cleaned text is at most as
    long as the document. *)
Theorem cleaned_text_is_no_longer :
  forall (u : Unicode) (content : pystr),
    List.length (vtt_clean u content) <= List.length content.
Proof.
  intros u content. unfold vtt_clean.
  etransitivity; [apply strip_length|].
  repeat (etransitivity;
          [apply re_sub_length; [discriminate | cbn [List.length]; lia]|]).
  apply Nat.le_refl.
Qed.

(** X11. A document of fewer than 10 characters -- the empty file
    included -- is always answered with the diagnostic followed by the
    whole document. *)
Theorem short_document_gets_diagnostic :
  forall (u : Unicode) (content : pystr),
    List.length content < 10 ->
    normalize u content
    = str "Error: Extracted text too short. VTT content: " ++ content.
Proof.
  intros u content L. unfold normalize.
  assert (C : List.length (vtt_clean u content) <= List.length content).
  { unfold vtt_clean.
    etransitivity; [apply strip_length|].
    repeat (etransitivity;
            [apply re_sub_length; [discriminate | cbn [List.length]; lia]|]).
    apply Nat.le_refl. }
  replace (List.length (vtt_clean u content) <? 10) with true
    by (symmetry; apply Nat.ltb_lt; lia).
  rewrite firstn_all2 by lia. reflexivity.
Qed.

Lemma short_document_gets_diagnostic_witness :
  normalize Reference.ascii_tables (str "<c>hi</c>")
  = str "Error: Extracted text too short. VTT content: <c>hi</c>".
Proof.
  apply (@short_document_gets_diagnostic Reference.ascii_tables (str "<c>hi</c>")).
  vm_compute. lia.
Defined.

(** X12. What [normalize] returns has at least 10 characters and is
    either the diagnostic with the first 500 characters of the document
    or the cleaned text, which is flat. *)
Theorem normalize_result_shape :
  forall (u : Unicode) (content : pystr),
    10 <= List.length (normalize u content)
    /\ ((List.length (vtt_clean u content) < 10
         /\ normalize u content
            = str "Error: Extracted text too short. VTT content: "
              ++ firstn 500 content)
        \/ (10 <= List.length (vtt_clean u content)
            /\ normalize u content = vtt_clean u content
            /\ flat u (normalize u content) = true)).
Proof.
  intros u content. unfold normalize.
  destruct (List.length (vtt_clean u content) <? 10) eqn:L.
  - apply Nat.ltb_lt in L. split; [|left; split; [exact L | reflexivity]].
    rewrite length_app. change (List.length too_short_prefix) with 46. lia.
  - apply Nat.ltb_ge in L. split; [exact L|]. right.
    split; [exact L|]. split; [reflexivity | apply cleaned_text_is_flat_aux].
Qed.

(** X13. [extract_text_from_vtt] never raises. A file that cannot be read
    gives "Error reading VTT file: " and the message, which the test of
    line 146 turns down; a file that can be read gives [normalize] of its
    content. *)
Theorem vtt_reading_never_raises :
  forall (rt : Runtime) (w : World) (vtt_file : pystr) (tr : trace),
    exists text : pystr,
      result_of (extract_text_from_vtt rt w vtt_file) tr = Ok text
      /\ match read_text w vtt_file with
         | Raise e =>
             text = str "Error reading VTT file: " ++ exn_str e
             /\ accepts_primary text = false
             /\ trace_of (extract_text_from_vtt rt w vtt_file) tr = tr
         | Ok content => text = normalize (unicode rt) content
         end.
Proof.
  intros rt w vtt_file tr.
  destruct (read_text w vtt_file) as [content|e] eqn:R.
  - exists (normalize (unicode rt) content).
    split; [apply (extract_text_from_vtt_reads rt w vtt_file tr R) | reflexivity].
  - exists (str "Error reading VTT file: " ++ exn_str e).
    unfold extract_text_from_vtt, result_of, trace_of, try_except, bind, lift, ret.
    rewrite R. cbn [fst snd].
    split; [reflexivity|]. split; [reflexivity|]. split; [|reflexivity].
    apply error_marked_not_accepted. reflexivity.
Qed.

(** X14. Line 120 could be deleted: for every document the cleaned text
    is what the other five substitutions and the strip give. *)
Theorem cue_number_step_changes_nothing :
  forall (u : Unicode) (content : pystr),
    vtt_clean u content
    = strip u
        (re_sub (re_spaces u) [SP]
           (re_sub re_newlines [SP]
              (re_sub re_header []
                 (re_sub re_tag []
                    (re_sub (re_timestamp u) [] content))))).
Proof.
  intros u content. unfold vtt_clean.
  rewrite cue_number_step_is_inert. reflexivity.
Qed.

(** X15. Cleaning a second time changes nothing as soon as the cleaned
    text holds no markup, whatever the document was. *)
Theorem cleaning_twice_without_residue :
  forall (u : Unicode) (content : pystr),
    no_cue_markup u (vtt_clean u content) = true ->
    vtt_clean u (vtt_clean u content) = vtt_clean u content.
Proof.
  intros u content K.
  apply vtt_clean_flat; [apply cleaned_text_is_flat_aux | exact K].
Qed.

Lemma cleaning_twice_without_residue_witness :
  vtt_clean Reference.ascii_tables (vtt_clean Reference.ascii_tables Reference.two_cues)
  = vtt_clean Reference.ascii_tables Reference.two_cues.
Proof.
  apply (@cleaning_twice_without_residue Reference.ascii_tables Reference.two_cues).
  vm_compute. reflexivity.
Defined.

(** X16. Flat text of at least 10 characters that holds no markup is
    returned as it is. *)
Theorem flat_text_is_returned_unchanged :
  forall (u : Unicode) (x : pystr),
    flat u x = true ->
    no_cue_markup u x = true ->
    10 <= List.length x ->
    normalize u x = x.
Proof.
  intros u x F K L. unfold normalize. rewrite (vtt_clean_flat u x F K).
  replace (List.length x <? 10) with false
    by (symmetry; apply Nat.ltb_ge; exact L).
  reflexivity.
Qed.

Lemma flat_text_is_returned_unchanged_witness :
  normalize Reference.ascii_tables (str "hello world")
  = str "hello world".
Proof.
  apply (@flat_text_is_returned_unchanged Reference.ascii_tables (str "hello world"));
    [reflexivity | reflexivity | vm_compute; lia].
Defined.

(** ** Properties of the page script *)

Lemma shown_has_only_pipeline (tr : trace) (x : widget) :
  In x (shown tr) -> exists e, x = Pipeline e /\ In e tr.
Proof.
  unfold shown. intros H. apply in_map_iff in H.
  destruct H as [e [<- I]]. eauto.
Qed.

(** The thumbnail code of lines 181-186 never fails, and what it shows is
    the image of the identifier or one error. *)
Lemma thumbnail_run (rt : Runtime) (youtube_link : pystr) :
  thumbnail rt youtube_link
  = (Ok tt,
     match youtube_link with
     | [] => []
     | _ :: _ =>
         match result_of (extract_video_id rt youtube_link) [] with
         | Ok (Some (c :: video_id)) =>
             [StImage (str "http://img.youtube.com/vi/"
                       ++ (c :: video_id) ++ str "/0.jpg")]
         | _ =>
             [Pipeline (StError ([10060%N]
                ++ str " Invalid YouTube URL. Please check and try again."))]
         end
     end).
Proof.
  unfold thumbnail. destruct youtube_link as [|a l]; [reflexivity|].
  destruct (extract_video_id_run rt (a :: l) []) as [v [R E]].
  rewrite R, E. destruct v as [[|c video_id]|]; reflexivity.
Qed.

(** X17. Nothing leaves the machine -- no request to the transcript
    service, to the summarisation service or to yt-dlp -- unless an API
    key was entered and accepted, the button was clicked and the link
    gave a non-empty identifier. *)
Theorem requests_need_key_click_and_identifier :
  forall (rt : Runtime) (w : World) (configure : pystr -> outcome unit)
         (s : Session) (x : widget),
    In x (snd (app_py rt w configure s)) ->
    is_request x = true ->
    api_key s <> []
    /\ (exists ok, configure (api_key s) = Ok ok)
    /\ clicked s = true
    /\ exists c video_id,
        result_of (extract_video_id rt (youtube_link s)) [] = Ok (Some (c :: video_id)).
Proof.
  intros rt w configure s x I Q. unfold app_py in I.
  assert (N : forall page, Forall (fun y => is_request y = false) page ->
                           ~ In x page).
  { intros page A X. rewrite Forall_forall in A. rewrite (A x X) in Q.
    discriminate Q. }
  destruct (api_key s) as [|k key] eqn:K.
  { exfalso. cbn [snd] in I. revert I. apply N. repeat constructor. }
  destruct (configure (k :: key)) as [ok|e] eqn:C.
  2: { exfalso. cbn [snd] in I. revert I. apply N. repeat constructor. }
  rewrite thumbnail_run in I. cbv zeta in I.
  assert (T : Forall (fun y => is_request y = false)
                match youtube_link s with
                | [] => []
                | _ :: _ =>
                    match result_of (extract_video_id rt (youtube_link s)) [] with
                    | Ok (Some (c :: video_id)) =>
                        [StImage (str "http://img.youtube.com/vi/"
                                  ++ (c :: video_id) ++ str "/0.jpg")]
                    | _ =>
                        [Pipeline (StError ([10060%N]
                           ++ str " Invalid YouTube URL. Please check and try again."))]
                    end
                end).
  { destruct (youtube_link s) as [|a l]; [constructor|].
    destruct (result_of (extract_video_id rt (a :: l)) []) as [[[|c b]|]|];
      repeat constructor. }
  assert (P : Forall (fun y => is_request y = false)
                (sidebar
                 ++ [ GenaiConfigure (k :: key);
                      SidebarSuccess ([9989%N] ++ str " API key configured!");
                      StTitle ([127909%N] ++ str " YouTube Video Summarizer");
                      StTextInput (str "Enter YouTube Video Link:") ])).
  { repeat constructor. }
  assert (F : Forall (fun y => is_request y = false) credit).
  { repeat constructor. }
  destruct (clicked s) eqn:B.
  2: { exfalso. cbn [snd] in I. revert I. apply N.
       repeat (apply Forall_app; split); trivial; repeat constructor. }
  assert (E : forall msg,
             Forall (fun y => is_request y = false) (shown [StError msg])).
  { intros msg. repeat constructor. }
  destruct (result_of (extract_video_id rt (youtube_link s)) [])
    as [[[|c video_id]|]|e] eqn:V.
  - exfalso.
    rewrite (notes_without_identifier rt w (youtube_link s) [] (or_intror V)) in I.
    cbn [snd app] in I. revert I. apply N.
    repeat (apply Forall_app; split); trivial; repeat constructor.
  - split; [discriminate|]. split; [eauto|]. split; [reflexivity|]. eauto.
  - exfalso.
    rewrite (notes_without_identifier rt w (youtube_link s) [] (or_introl V)) in I.
    cbn [snd app] in I. revert I. apply N.
    repeat (apply Forall_app; split); trivial; repeat constructor.
  - destruct (extract_video_id_run rt (youtube_link s) []) as [v [R _]].
    rewrite R in V. discriminate V.
Qed.

Lemma requests_need_key_click_and_identifier_witness :
  let s := {| api_key := str "key"; youtube_link := str "https://youtu.be/abc123";
              clicked := true |} in
  clicked s = true
  /\ exists c video_id,
      result_of (extract_video_id Reference.runtime (youtube_link s)) []
      = Ok (Some (c :: video_id)).
Proof.
  cbv zeta.
  apply (@requests_need_key_click_and_identifier Reference.runtime
           Reference.two_api_cues (fun _ => Ok tt)
           {| api_key := str "key"; youtube_link := str "https://youtu.be/abc123";
              clicked := true |}
           (Pipeline (ApiListTranscripts (str "abc123"))));
    [vm_compute; tauto | reflexivity].
Defined.

(** Past the sidebar, a run shows the title, the link input, the
    thumbnail code's output and the button; what follows comes from the
    button handler and the credit and holds no image. *)
Lemma app_py_page (rt : Runtime) (w : World) (configure : pystr -> outcome unit)
    (s : Session) (k : char) (key : pystr) (ok : unit) :
  api_key s = k :: key ->
  configure (k :: key) = Ok ok ->
  exists rest,
    snd (app_py rt w configure s)
    = (sidebar
       ++ [ GenaiConfigure (k :: key);
            SidebarSuccess ([9989%N] ++ str " API key configured!");
            StTitle ([127909%N] ++ str " YouTube Video Summarizer");
            StTextInput (str "Enter YouTube Video Link:") ])
      ++ snd (thumbnail rt (youtube_link s))
      ++ [StButton (str "Get Detailed Notes")]
      ++ rest
    /\ forall url, ~ In (StImage url) rest.
Proof.
  intros K C. unfold app_py. rewrite K, C, thumbnail_run. cbv zeta. cbn [snd].
  assert (F : forall url, ~ In (StImage url) credit).
  { intros url H. simpl in H.
    repeat (destruct H as [H|H]; [discriminate H|]). exact H. }
  assert (G : forall tr url, ~ In (StImage url) (shown tr)).
  { intros tr url H. apply shown_has_only_pipeline in H.
    destruct H as [e [H _]]. discriminate H. }
  destruct (clicked s).
  - destruct (get_detailed_notes rt w (youtube_link s) []) as [[u|e] tr];
      cbn [snd]; rewrite <- ?app_assoc.
    + exists (shown tr ++ credit). split; [reflexivity|].
      intros url H. apply in_app_or in H. destruct H as [H|H];
        [exact (G _ _ H) | exact (F _ H)].
    + exists (shown tr). split; [reflexivity | apply G].
  - cbn [snd]. rewrite <- ?app_assoc. exists credit. split; [reflexivity | exact F].
Qed.

(** X18. With an accepted API key, the page shows a thumbnail exactly when
    the link box is not empty and the link gives a non-empty identifier;
    the image is then the one of that identifier, whether or not the
    button was clicked. *)
Theorem thumbnail_shown_exactly_when :
  forall (rt : Runtime) (w : World) (configure : pystr -> outcome unit)
         (s : Session) (k : char) (key : pystr) (ok : unit) (url : pystr),
    api_key s = k :: key ->
    configure (k :: key) = Ok ok ->
    (In (StImage url) (snd (app_py rt w configure s))
     <->
     youtube_link s <> []
     /\ exists c video_id,
         result_of (extract_video_id rt (youtube_link s)) [] = Ok (Some (c :: video_id))
         /\ url = str "http://img.youtube.com/vi/" ++ (c :: video_id) ++ str "/0.jpg").
Proof.
  intros rt w configure s k key ok url K C.
  destruct (app_py_page rt w configure s K C) as [rest [-> R]].
  rewrite thumbnail_run. cbn [snd].
  split.
  - intros H. apply in_app_or in H. destruct H as [H|H].
    { exfalso. apply in_app_or in H. destruct H as [H|H]; simpl in H;
        repeat (destruct H as [H|H]; [discriminate H|]); exact H. }
    apply in_app_or in H. destruct H as [H|H].
    + destruct (youtube_link s) as [|a l]; [contradiction|].
      split; [discriminate|].
      destruct (result_of (extract_video_id rt (a :: l)) []) as [[[|c b]|]|];
        destruct H as [H|[]]; try discriminate H.
      injection H as <-. eauto.
    + exfalso. destruct H as [H|H]; [discriminate H | exact (R _ H)].
  - intros [N [c [video_id [V ->]]]].
    apply in_or_app. right. apply in_or_app. left.
    destruct (youtube_link s) as [|a l]; [congruence|].
    rewrite V. left. reflexivity.
Qed.

Lemma thumbnail_shown_exactly_when_witness :
  In (StImage (str "http://img.youtube.com/vi/abc123/0.jpg"))
     (snd (app_py Reference.runtime Reference.two_api_cues (fun _ => Ok tt)
             {| api_key := str "key";
                youtube_link := str "https://www.youtube.com/watch?v=abc123&t=30s";
                clicked := false |})).
Proof.
  apply (@thumbnail_shown_exactly_when Reference.runtime Reference.two_api_cues
           (fun _ => Ok tt)
           {| api_key := str "key";
              youtube_link := str "https://www.youtube.com/watch?v=abc123&t=30s";
              clicked := false |}
           107%N (str "ey") tt (str "http://img.youtube.com/vi/abc123/0.jpg")
           eq_refl eq_refl).
  split; [discriminate|].
  exists 97%N, (str "bc123"). split; reflexivity.
Defined.

(** X19. A run can only end in an uncaught exception if the button was
    clicked, the link gave an identifier, and the summarisation service
    raised that exception on the prompt followed by the text of the
    acquisition. *)
Theorem only_summarisation_can_crash :
  forall (rt : Runtime) (w : World) (configure : pystr -> outcome unit)
         (s : Session) (e : exn),
    fst (app_py rt w configure s) = Crashed e ->
    clicked s = true
    /\ exists c video_id text,
        result_of (extract_video_id rt (youtube_link s)) [] = Ok (Some (c :: video_id))
        /\ result_of (extract_transcript_details rt w (c :: video_id)) [] = Ok text
        /\ generate_content w (prompt ++ text) = Raise e.
Proof.
  intros rt w configure s e H. unfold app_py in H.
  destruct (api_key s) as [|k key]; [discriminate H|].
  destruct (configure (k :: key)); [|discriminate H].
  rewrite thumbnail_run in H. cbv zeta in H.
  destruct (clicked s); [|discriminate H].
  split; [reflexivity|].
  destruct (extract_video_id_run rt (youtube_link s) []) as [v [R _]].
  destruct v as [[|c video_id]|].
  - rewrite (notes_without_identifier rt w (youtube_link s) [] (or_intror R)) in H.
    discriminate H.
  - destruct (details_shows_no_heading rt w (c :: video_id) [])
      as [text [added [D _]]].
    rewrite (notes_after_acquisition rt w (youtube_link s) [] R D) in H.
    exists c, video_id, text. split; [exact R|].
    split; [unfold result_of; rewrite D; reflexivity|].
    destruct (startswith (str "Error:") text); [discriminate H|].
    destruct (generate_content w (prompt ++ text)) as [summary|e'];
      [discriminate H|].
    cbn [fst] in H. injection H as ->. reflexivity.
  - rewrite (notes_without_identifier rt w (youtube_link s) [] (or_introl R)) in H.
    discriminate H.
Qed.

Lemma only_summarisation_can_crash_witness :
  let w := {| temporary_directory := Ok (str "/tmp/tmpk3x9");
              extract_info := fun _ => Raise (Reference.failing DownloadError "");
              download := fun _ => Ok tt;
              listdir := fun _ => Ok [];
              read_text := fun _ => Ok [];
              list_transcripts := list_transcripts Reference.two_api_cues;
              generate_content := fun _ =>
                Raise (Reference.failing OtherException "429 quota exceeded") |} in
  let s := {| api_key := str "key"; youtube_link := str "https://youtu.be/abc123";
              clicked := true |} in
  clicked s = true
  /\ exists c video_id text,
      result_of (extract_video_id Reference.runtime (youtube_link s)) []
        = Ok (Some (c :: video_id))
      /\ result_of (extract_transcript_details Reference.runtime w (c :: video_id)) []
        = Ok text
      /\ generate_content w (prompt ++ text)
        = Raise (Reference.failing OtherException "429 quota exceeded").
Proof.
  cbv zeta.
  apply (@only_summarisation_can_crash Reference.runtime _ (fun _ => Ok tt)
           {| api_key := str "key"; youtube_link := str "https://youtu.be/abc123";
              clicked := true |}
           (Reference.failing OtherException "429 quota exceeded")).
  vm_compute. reflexivity.
Defined.
